(** * The image-denoiser client (frontend/src/App.js)

    A shallow embedding of the React component [App]: its state, the
    effects that load and save the settings, its event handlers, and the
    event loop that runs them. (The third effect only revokes object URLs
    when the component unmounts, after which nothing of it runs.) The
    [<Analytics />] component of the analytics package (lines 2 and 203) is
    outside the model: the requests recorded are those of [handleDenoise].

    - JavaScript values that come out of [JSON.parse] are the inductive
      [JSValue]; numbers are IEEE binary64 ([PrimFloat.float]).
    - A handler is a computation in the monad [M]: it threads the browser
      ([World]: React state, localStorage, revoked object URLs, console,
      requests sent, downloads) and either completes normally or throws.
    - Browser built-ins whose text algorithms are not part of the
      repository ([JSON.parse], [JSON.stringify], [Number.prototype.toString],
      [parseFloat]) are parameters of the development. *)

From Stdlib Require Import String Ascii List NArith Bool DecimalString.
From Stdlib Require Import Floats.
From stdpp Require Import base option gmap strings.
Import ListNotations.

Set Warnings "-register-all".
Local Open Scope string_scope.

(** ** JavaScript values *)

Module JS.

(** What [JSON.parse] can return, plus [undefined] (the result of reading a
    property that is not there). An object is the association list of its
    own properties; reading a key takes its first binding. *)
Inductive JSValue : Type :=
| JUndefined
| JNull
| JBool (b : bool)
| JNum (x : float)
| JStr (s : string)
| JArr (elems : list JSValue)
| JObj (props : list (string * JSValue)).

(** A thrown value. Everything this program can catch is an [Error]
    instance; only its [message] is ever read. *)
Record JSError : Type := mkError { message : string }.

(** Completion of an evaluation: a value, or an exception. For an awaited
    promise: fulfilled, or rejected. *)
Inductive Completion (A : Type) : Type :=
| Normal (a : A)
| Throw (e : JSError).
Arguments Normal {A} a.
Arguments Throw {A} e.

(** Messages of the engine's own [TypeError]s (V8's wording; no statement
    below depends on the text). *)
Definition TypeError_null_property : JSError :=
  mkError "Cannot read properties of null".
Definition TypeError_to_primitive : JSError :=
  mkError "Cannot convert object to primitive value".

(** [ToBoolean]: the test of [if (v)], [!v] and [a && b]. *)
Definition ToBoolean (v : JSValue) : bool :=
  match v with
  | JUndefined | JNull => false
  | JBool b => b
  | JNum x => negb (PrimFloat.eqb x 0 || PrimFloat.is_nan x)
  | JStr s => negb (String.eqb s "")
  | JArr _ | JObj _ => true
  end.

Fixpoint assoc (k : string) (props : list (string * JSValue)) : option JSValue :=
  match props with
  | [] => None
  | (k', v) :: rest => if String.eqb k k' then Some v else assoc k rest
  end.

(** [v.k] for the property names this program reads ([method], [strength],
    [error]): none of them is defined on a built-in prototype, so on a
    primitive or an array the result is [undefined]; on [null] and
    [undefined] the access throws a [TypeError]. *)
Definition Get (v : JSValue) (k : string) : Completion JSValue :=
  match v with
  | JUndefined | JNull => Throw TypeError_null_property
  | JObj props => Normal (default JUndefined (assoc k props))
  | _ => Normal JUndefined
  end.

(** [typeof v === "number"] *)
Definition is_number (v : JSValue) : bool :=
  match v with JNum _ => true | _ => false end.

(** [Object.is] on the values React compares in a dependency array.
    Numbers: SameValue (NaN equals NaN, +0 differs from -0), which is
    Leibniz equality of binary64. Objects and arrays are compared by
    structure; the only object a state variable can hold is the one the
    load effect stored, so between two renders it is the same object
    exactly when it has the same structure. *)
Fixpoint same_value (a b : JSValue) {struct a} : bool :=
  match a, b with
  | JUndefined, JUndefined => true
  | JNull, JNull => true
  | JBool x, JBool y => Bool.eqb x y
  | JNum x, JNum y => PrimFloat.Leibniz.eqb x y
  | JStr x, JStr y => String.eqb x y
  | JArr xs, JArr ys =>
      (fix go (xs ys : list JSValue) : bool :=
         match xs, ys with
         | [], [] => true
         | x :: xs', y :: ys' => same_value x y && go xs' ys'
         | _, _ => false
         end) xs ys
  | JObj ps, JObj qs =>
      (fix go (ps qs : list (string * JSValue)) : bool :=
         match ps, qs with
         | [], [] => true
         | (k, x) :: ps', (k', y) :: qs' =>
             String.eqb k k' && same_value x y && go ps' qs'
         | _, _ => false
         end) ps qs
  | _, _ => false
  end.

(** Decimal digits of a natural number: [ToString] of an integer such as
    [response.status]. *)
Definition N_to_string (n : N) : string :=
  NilZero.string_of_uint (N.to_uint n).

Section WithNumberToString.

(** [Number.prototype.toString()] with no radix. *)
Variable Number_toString : float -> string.

(** [ToString] on values built by [JSON.parse]. An array goes through
    [Array.prototype.join]: [null] and [undefined] elements give the empty
    string. A plain object gives "[object Object]" through
    [Object.prototype.toString], unless it has an own [toString] property:
    that is never callable in parsed JSON, [valueOf] then returns the
    object itself, and the conversion throws a [TypeError]. *)
Fixpoint ToString (v : JSValue) : Completion string :=
  match v with
  | JUndefined => Normal "undefined"
  | JNull => Normal "null"
  | JBool true => Normal "true"
  | JBool false => Normal "false"
  | JNum x => Normal (Number_toString x)
  | JStr s => Normal s
  | JArr elems =>
      (fix join (first : bool) (l : list JSValue) : Completion string :=
         match l with
         | [] => Normal ""
         | e :: rest =>
             match (match e with
                    | JUndefined | JNull => Normal ""
                    | _ => ToString e
                    end) with
             | Throw err => Throw err
             | Normal s =>
                 match join false rest with
                 | Throw err => Throw err
                 | Normal t =>
                     Normal ((if first then "" else ",") +:+ s +:+ t)
                 end
             end
         end) true elems
  | JObj props =>
      match assoc "toString" props with
      | Some _ => Throw TypeError_to_primitive
      | None => Normal "[object Object]"
      end
  end.

End WithNumberToString.

End JS.
Export JS.

(** ** The browser as the component sees it *)

Module Browser.

(** A file picked in the file input, a response body read as a blob, and
    the opaque URL [URL.createObjectURL] hands out for either. An object
    URL is a non-empty "blob:..." string, so [if (url)] on a state variable
    that holds one, or [null], is a test for [null]. *)
Record File : Type := mkFile { file_name : string; file_bytes : string }.
Record Blob : Type := mkBlob { blob_bytes : string }.
Inductive ObjectURL : Type := BlobURL (id : N).

(** The seven [useState] cells of [App] (App.js lines 9-17). [None] is
    [null]. [method] is a [JSValue] because the load effect stores whatever
    truthy value it finds. *)
Record AppState : Type := mkAppState {
  selectedFile : option File;
  originalPreviewUrl : option ObjectURL;
  denoisedPreviewUrl : option ObjectURL;
  method : JSValue;
  strength : float;
  isProcessing : bool;
  statusMessage : string
}.

(** A [FormData] body, in append order. *)
Inductive FormEntry : Type :=
| FormFile (f : File)
| FormText (s : string).
Definition FormData : Type := list (string * FormEntry).

(** A call of [fetch(url, {method, body})]. *)
Record Request : Type := mkRequest {
  req_url : string;
  req_method : string;
  req_body : FormData
}.

(** What [fetch] resolves with. [ok] is the Fetch standard's: status in
    200..299. [body] is the result of reading the body to its end, which
    both [response.json()] and [response.blob()] do first. *)
Record Response : Type := mkResponse {
  status : N;
  body : Completion string
}.
Definition ok (r : Response) : bool :=
  (200 <=? status r)%N && (status r <=? 299)%N.

(** Everything a handler can read or change. *)
Record World : Type := mkWorld {
  react : AppState;
  localStorage : gmap string string;
  revoked : list ObjectURL;
  next_url : N;
  console : list string;
  sent : list Request;
  downloads : list (ObjectURL * string)
}.

(** Computations: run in a world, complete normally or throw, leave a
    world behind either way. *)
Definition M (A : Type) : Type := World -> Completion A * World.

#[global] Instance M_ret : MRet M := fun A a w => (Normal a, w).
#[global] Instance M_bind : MBind M := fun A B f m w =>
  match m w with
  | (Normal a, w') => f a w'
  | (Throw e, w') => (Throw e, w')
  end.
#[global] Instance M_throw : MThrow JSError M := fun A e w => (Throw e, w).

(** [try { body } catch (err) { handler }] *)
Definition try_catch {A} (body : M A) (handler : JSError -> M A) : M A :=
  fun w =>
    match body w with
    | (Normal a, w') => (Normal a, w')
    | (Throw e, w') => handler e w'
    end.

(** [try { body } finally { fin }]: [fin] runs on both exits; an exception
    of [fin] replaces the outcome of [body]. *)
Definition try_finally {A} (body : M A) (fin : M unit) : M A :=
  fun w =>
    match body w with
    | (r, w') =>
        match fin w' with
        | (Normal _, w'') => (r, w'')
        | (Throw e, w'') => (Throw e, w'')
        end
    end.

(** A [try { before; await p; ... } catch (e) { handler } finally { fin }]
    block, up to the [await]. When [before] completes the function is
    suspended, with the value of [before]; when it throws, [handler] and
    [fin] run now and the function has returned ([None]). *)
Definition try_until_await {A} (before : M A) (handler : JSError -> M unit)
    (fin : M unit) : M (option A) :=
  fun w =>
    match before w with
    | (Normal a, w') => (Normal (Some a), w')
    | (Throw e, w') => (try_finally (handler e) fin;; mret None) w'
    end.

(** A completion computed without the world. *)
Definition lift {A} (c : Completion A) : M A := fun w => (c, w).

Definition modify (f : World -> World) : M unit := fun w => (Normal tt, f w).

Definition with_react (f : AppState -> AppState) (w : World) : World :=
  mkWorld (f (react w)) (localStorage w) (revoked w) (next_url w)
          (console w) (sent w) (downloads w).

(** The state setters. Each replaces one cell and leaves the others. *)
Definition setSelectedFile (v : option File) : M unit :=
  modify (with_react (fun s =>
    mkAppState v (originalPreviewUrl s) (denoisedPreviewUrl s) (method s)
               (strength s) (isProcessing s) (statusMessage s))).
Definition setOriginalPreviewUrl (v : option ObjectURL) : M unit :=
  modify (with_react (fun s =>
    mkAppState (selectedFile s) v (denoisedPreviewUrl s) (method s)
               (strength s) (isProcessing s) (statusMessage s))).
Definition setDenoisedPreviewUrl (v : option ObjectURL) : M unit :=
  modify (with_react (fun s =>
    mkAppState (selectedFile s) (originalPreviewUrl s) v (method s)
               (strength s) (isProcessing s) (statusMessage s))).
Definition setMethod (v : JSValue) : M unit :=
  modify (with_react (fun s =>
    mkAppState (selectedFile s) (originalPreviewUrl s) (denoisedPreviewUrl s)
               v (strength s) (isProcessing s) (statusMessage s))).
Definition setStrength (v : float) : M unit :=
  modify (with_react (fun s =>
    mkAppState (selectedFile s) (originalPreviewUrl s) (denoisedPreviewUrl s)
               (method s) v (isProcessing s) (statusMessage s))).
Definition setIsProcessing (v : bool) : M unit :=
  modify (with_react (fun s =>
    mkAppState (selectedFile s) (originalPreviewUrl s) (denoisedPreviewUrl s)
               (method s) (strength s) v (statusMessage s))).
Definition setStatusMessage (v : string) : M unit :=
  modify (with_react (fun s =>
    mkAppState (selectedFile s) (originalPreviewUrl s) (denoisedPreviewUrl s)
               (method s) (strength s) (isProcessing s) v)).

(** [window.localStorage.getItem(k)]: [None] is [null]. *)
Definition localStorage_getItem (k : string) : M (option string) :=
  fun w => (Normal (localStorage w !! k), w).

(** [window.localStorage.setItem(k, v)] *)
Definition localStorage_setItem (k v : string) : M unit :=
  modify (fun w =>
    mkWorld (react w) (<[k := v]> (localStorage w)) (revoked w) (next_url w)
            (console w) (sent w) (downloads w)).

(** [URL.revokeObjectURL(u)] *)
Definition revokeObjectURL (u : ObjectURL) : M unit :=
  modify (fun w =>
    mkWorld (react w) (localStorage w) (revoked w ++ [u]) (next_url w)
            (console w) (sent w) (downloads w)).

(** [URL.createObjectURL(x)]: a URL never handed out before. *)
Definition createObjectURL : M ObjectURL :=
  fun w =>
    (Normal (BlobURL (next_url w)),
     mkWorld (react w) (localStorage w) (revoked w) (N.succ (next_url w))
             (console w) (sent w) (downloads w)).

(** [console.warn] and [console.error] *)
Definition console_log (line : string) : M unit :=
  modify (fun w =>
    mkWorld (react w) (localStorage w) (revoked w) (next_url w)
            (console w ++ [line]) (sent w) (downloads w)).

(** The call [fetch(url, init)] itself: the request leaves. What it
    resolves with arrives later, as an event. *)
Definition fetch (r : Request) : M unit :=
  modify (fun w =>
    mkWorld (react w) (localStorage w) (revoked w) (next_url w)
            (console w) (sent w ++ [r]) (downloads w)).

(** A click on an anchor with [href = u] and [download = name]: the
    browser saves what [u] refers to under [name]. *)
Definition download (u : ObjectURL) (name : string) : M unit :=
  modify (fun w =>
    mkWorld (react w) (localStorage w) (revoked w) (next_url w)
            (console w) (sent w) (downloads w ++ [(u, name)])).

(** Two shapes of statement about a computation: it lets no exception
    out, and it leaves one aspect [proj] of the world as it found it. *)
Definition never_throws {A} (m : M A) : Prop :=
  forall w, exists a, fst (m w) = Normal a.

Definition keeps {A B} (proj : World -> B) (m : M A) : Prop :=
  forall w, proj (snd (m w)) = proj w.

End Browser.
Export Browser.

(** ** The component *)

Module App.

Definition API_URL : string :=
  "https://image-denoiser-2f3r.onrender.com/api/denoise".
Definition STORAGE_KEY : string := "image-denoiser-settings-v1".

(** The [useState] initial values (lines 9-17). *)
Definition initial_state : AppState :=
  mkAppState None None None (JStr "cdae") 0.5%float false "".

(** The browser when the page loads: nothing has happened yet, and
    localStorage holds what earlier visits, or anyone else, left there. *)
Definition initial_world (storage : gmap string string) : World :=
  mkWorld initial_state storage [] 0%N [] [] [].

(** The values of the four [<option>]s of the method select
    (lines 218-223). *)
Definition METHOD_OPTIONS : list string := ["cdae"; "mean"; "median"; "wavelet"].

(** [min="0" max="1"] of the strength slider (lines 235-236). *)
Definition in_unit_interval (x : float) : bool :=
  PrimFloat.leb 0 x && PrimFloat.leb x 1.

(** [disabled={isProcessing}] of the Denoise button (line 247). *)
Definition denoise_button_disabled (s : AppState) : bool := isProcessing s.

(** The settings object [{ method, strength }] (lines 36-39). *)
Definition settings_object (m : JSValue) (x : float) : JSValue :=
  JObj [("method", m); ("strength", JNum x)].

Section WithBuiltins.

(** [JSON.parse]: the value, or the [SyntaxError] it throws. *)
Variable JSON_parse : string -> Completion JSValue.
(** [JSON.stringify] of an object. *)
Variable JSON_stringify : JSValue -> string.
(** [Number.prototype.toString()] *)
Variable Number_toString : float -> string.
(** The global [parseFloat]. *)
Variable parseFloat : string -> float.

(** *** Effects *)

(** Load settings from localStorage on mount (lines 20-32). The source
    reads [settings.method] and [settings.strength] twice each, in the
    test and in the call; a read has no effect, so it is done once. *)
Definition loadSettings : M unit :=
  try_catch
    (raw ← localStorage_getItem STORAGE_KEY;
     match raw with
     | None => mret tt
     | Some text =>
         if String.eqb text "" then mret tt
         else
           settings ← lift (JSON_parse text);
           m ← lift (Get settings "method");
           (if ToBoolean m then setMethod m else mret tt);;
           x ← lift (Get settings "strength");
           match x with
           | JNum v => setStrength v
           | _ => mret tt
           end
     end)
    (fun err => console_log "Failed to load settings").

(** Save settings to localStorage (lines 35-41), with the [method] and
    [strength] of the render that scheduled it. *)
Definition saveSettings (m : JSValue) (x : float) : M unit :=
  localStorage_setItem STORAGE_KEY (JSON_stringify (settings_object m x)).

(** The dependency array [[method, strength]] (line 41): the effect runs
    again when either differs, by [Object.is], from the previous render. *)
Definition deps_changed (prev next : AppState) : bool :=
  negb (same_value (method prev) (method next)
        && PrimFloat.Leibniz.eqb (strength prev) (strength next)).

(** *** Event handlers

    A handler is a closure of one render: it reads the state [snap] of
    that render and calls setters. *)

(** Lines 56-80. [file] is [event.target.files[0]]. *)
Definition handleFileChange (snap : AppState) (file : option File) : M unit :=
  match file with
  | None =>
      setSelectedFile None;;
      setOriginalPreviewUrl None
  | Some f =>
      setSelectedFile (Some f);;
      setStatusMessage "";;
      match originalPreviewUrl snap with
      | Some u => revokeObjectURL u
      | None => mret tt
      end;;
      url ← createObjectURL;
      setOriginalPreviewUrl (Some url);;
      match denoisedPreviewUrl snap with
      | Some u => revokeObjectURL u
      | None => mret tt
      end;;
      setDenoisedPreviewUrl None
  end.

(** Lines 82-84. [value] is [event.target.value]. *)
Definition handleMethodChange (value : string) : M unit :=
  setMethod (JStr value).

(** Lines 86-88. *)
Definition handleStrengthChange (value : string) : M unit :=
  setStrength (parseFloat value).

(** [catch (error) { ... }] of [handleDenoise] (lines 131-133). *)
Definition denoise_catch (error : JSError) : M unit :=
  console_log (message error);;
  setStatusMessage ("Error: " +:+ message error).

(** [finally { ... }] of [handleDenoise] (lines 134-136). *)
Definition denoise_finally : M unit := setIsProcessing false.

(** The three appended fields (lines 105-107), in order. *)
Definition denoise_form (file : File) (m : string) (x : float) : FormData :=
  [("file", FormFile file);
   ("method", FormText m);
   ("strength", FormText (Number_toString x))].

(** Lines 104-107. [FormData.append] converts a non-file value with
    [ToString]. *)
Definition build_form (snap : AppState) (file : File) : M FormData :=
  m ← lift (ToString Number_toString (method snap));
  mret (denoise_form file m (strength snap)).

(** [handleDenoise] up to [await fetch(...)] (lines 90-112). The result
    is the request the handler is now waiting on, or [None] when the
    handler has already returned. *)
Definition handleDenoise_begin (snap : AppState) : M (option Request) :=
  match selectedFile snap with
  | None =>
      setStatusMessage "Please upload an image first.";;
      mret None
  | Some file =>
      setIsProcessing true;;
      setStatusMessage "Processing...";;
      match denoisedPreviewUrl snap with
      | Some u => revokeObjectURL u;; setDenoisedPreviewUrl None
      | None => mret tt
      end;;
      try_until_await
        (formData ← build_form snap file;
         let request := mkRequest API_URL "POST" formData in
         fetch request;;
         mret request)
        denoise_catch
        denoise_finally
  end.

(** [await response.json()]: read the body, then parse it. *)
Definition response_json (r : Response) : M JSValue :=
  text ← lift (body r);
  lift (JSON_parse text).

(** [await response.blob()] *)
Definition response_blob (r : Response) : M Blob :=
  text ← lift (body r);
  mret (mkBlob text).

(** [new Error(msg)]: the message is [ToString(msg)]. *)
Definition new_Error (msg : JSValue) : M JSError :=
  s ← lift (ToString Number_toString msg);
  mret (mkError s).

(** Lines 114-125: the error message of a response that is not ok. *)
Definition error_message_of (response : Response) : M JSValue :=
  let errorMsg := JStr ("Server error: " +:+ N_to_string (status response)) in
  try_catch
    (data ← response_json response;
     if ToBoolean data
     then
       e ← lift (Get data "error");
       if ToBoolean e
       then lift (Get data "error")
       else mret errorMsg
     else mret errorMsg)
    (fun _ => mret errorMsg).

(** [handleDenoise] from the point where the [fetch] promise settles
    (lines 109-136); [settled] is what it settled with. *)
Definition handleDenoise_resume (settled : Completion Response) : M unit :=
  try_finally
    (try_catch
       (response ← lift settled;
        if negb (ok response)
        then
          errorMsg ← error_message_of response;
          err ← new_Error errorMsg;
          mthrow err
        else
          blob ← response_blob response;
          url ← createObjectURL;
          setDenoisedPreviewUrl (Some url);;
          setStatusMessage "Denoising completed.")
       denoise_catch)
    denoise_finally.

(** Lines 139-147. The anchor is added to the document, clicked and
    removed again. *)
Definition handleDownload (snap : AppState) : M unit :=
  match denoisedPreviewUrl snap with
  | None => mret tt
  | Some u => download u "denoised.png"
  end.

(** Lines 149-161. *)
Definition handleReset (snap : AppState) : M unit :=
  match originalPreviewUrl snap with
  | Some u => revokeObjectURL u
  | None => mret tt
  end;;
  match denoisedPreviewUrl snap with
  | Some u => revokeObjectURL u
  | None => mret tt
  end;;
  setSelectedFile None;;
  setOriginalPreviewUrl None;;
  setDenoisedPreviewUrl None;;
  setStatusMessage "".

(** *** The event loop

    Between two events React has rendered: every handler runs as the
    closure of the current state, and the controls are the ones that
    state renders. *)

Record System : Type := mkSystem {
  world : World;
  (** requests whose [fetch] promise has not settled *)
  inflight : list Request
}.

Inductive Event : Type :=
| EvFileChange (file : option File)
| EvMethodChange (value : string)
| EvStrengthChange (value : string)
| EvDenoiseClick
| EvDownloadClick
| EvResetClick
| EvFetchSettled (i : nat) (settled : Completion Response).

(** What the rendered page lets happen. The select offers its four
    options; the slider keeps its value between [min] and [max]; a
    disabled button does not click; the download button exists only
    with a result (lines 277-291); a promise settles once. *)
Definition enabled (e : Event) (s : System) : bool :=
  match e with
  | EvFileChange _ | EvResetClick => true
  | EvMethodChange value => bool_decide (value ∈ METHOD_OPTIONS)
  | EvStrengthChange value => in_unit_interval (parseFloat value)
  | EvDenoiseClick => negb (denoise_button_disabled (react (world s)))
  | EvDownloadClick =>
      match denoisedPreviewUrl (react (world s)) with
      | Some _ => true
      | None => false
      end
  | EvFetchSettled i _ => bool_decide (i < length (inflight s))
  end.

(** Run a handler to its end; an exception it lets out is reported by
    the runtime and the state it left stands. *)
Definition run {A} (m : M A) (w : World) : World := snd (m w).

(** The handler of an event. *)
Definition dispatch (e : Event) (s : System) : System :=
  let snap := react (world s) in
  match e with
  | EvFileChange file =>
      mkSystem (run (handleFileChange snap file) (world s)) (inflight s)
  | EvMethodChange value =>
      mkSystem (run (handleMethodChange value) (world s)) (inflight s)
  | EvStrengthChange value =>
      mkSystem (run (handleStrengthChange value) (world s)) (inflight s)
  | EvDenoiseClick =>
      let r := handleDenoise_begin snap (world s) in
      mkSystem (snd r)
               match fst r with
               | Normal (Some request) => inflight s ++ [request]
               | _ => inflight s
               end
  | EvDownloadClick =>
      mkSystem (run (handleDownload snap) (world s)) (inflight s)
  | EvResetClick =>
      mkSystem (run (handleReset snap) (world s)) (inflight s)
  | EvFetchSettled i settled =>
      mkSystem (run (handleDenoise_resume settled) (world s))
               (delete i (inflight s))
  end.

(** The render after a state change: the save effect runs when its
    dependencies changed. *)
Definition rerender (prev : AppState) (w : World) : World :=
  if deps_changed prev (react w)
  then run (saveSettings (method (react w)) (strength (react w))) w
  else w.

Definition step (e : Event) (s : System) : System :=
  let s' := dispatch e s in
  mkSystem (rerender (react (world s)) (world s')) (inflight s').

(** The first render: both effects run as closures of the initial
    state, in source order; the setters the load effect called then cause
    a second render. *)
Definition mount (storage : gmap string string) : System :=
  let w0 := initial_world storage in
  let w1 := run loadSettings w0 in
  let w2 := run (saveSettings (method initial_state) (strength initial_state)) w1 in
  mkSystem (rerender initial_state w2) [].

(** The states the page can be in. *)
Inductive reachable (storage : gmap string string) : System -> Prop :=
| reachable_mount : reachable storage (mount storage)
| reachable_step s e :
    reachable storage s ->
    enabled e s = true ->
    reachable storage (step e s).

(** *** Vocabulary of the statements *)

(** The React state of a system. *)
Definition ui (s : System) : AppState := react (world s).

(** The settings the load effect gets to read: the parsed item under
    [STORAGE_KEY], when the item is there, is not empty and parses. *)
Definition stored_settings (storage : gmap string string) : option JSValue :=
  match storage !! STORAGE_KEY with
  | None => None
  | Some text =>
      if String.eqb text "" then None
      else match JSON_parse text with
           | Normal settings => Some settings
           | Throw _ => None
           end
  end.

(** Field [k] of the stored settings; [undefined] when there are no
    settings to read or the settings have no such field. *)
Definition stored_field (storage : gmap string string) (k : string) : JSValue :=
  match stored_settings storage with
  | Some settings =>
      match Get settings k with
      | Normal v => v
      | Throw _ => JUndefined
      end
  | None => JUndefined
  end.

(** One of the four recognized method identifiers. *)
Definition recognized (m : JSValue) : Prop :=
  exists name, m = JStr name /\ name ∈ METHOD_OPTIONS.

(** Stored settings that respect the controls: a stored method that the
    load effect would take is one of the four options, and a stored strength
    that it would take lies between the slider's [min] and [max]. *)
Definition stored_method_ok (storage : gmap string string) : Prop :=
  ToBoolean (stored_field storage "method") = true ->
  recognized (stored_field storage "method").

Definition stored_strength_ok (storage : gmap string string) : Prop :=
  match stored_field storage "strength" with
  | JNum x => in_unit_interval x = true
  | _ => True
  end.

(** [formData.get(name)]: the first entry of that name. *)
Fixpoint form_get (name : string) (form : FormData) : option FormEntry :=
  match form with
  | [] => None
  | (k, v) :: rest => if String.eqb name k then Some v else form_get name rest
  end.

(** "Server error: <status code>" (line 115). *)
Definition fallback_message (response : Response) : string :=
  "Server error: " +:+ N_to_string (status response).

(** The error message of a response in the words of the interface
    description: the [error] field of a JSON body when the body parses and
    the field is truthy, the fallback otherwise. To be compared with
    [error_message_of]. *)
Definition described_error_message (response : Response) : JSValue :=
  match body response with
  | Normal text =>
      match JSON_parse text with
      | Normal (JObj props) =>
          match assoc "error" props with
          | Some e => if ToBoolean e then e else JStr (fallback_message response)
          | None => JStr (fallback_message response)
          end
      | _ => JStr (fallback_message response)
      end
  | Throw _ => JStr (fallback_message response)
  end.

(** *** The unmount effect and the page as rendered *)



(** [u] is on the page: it is the [src] of one of the two preview images
    (lines 264-283). *)
Definition shown (st : AppState) (u : ObjectURL) : Prop :=
  originalPreviewUrl st = Some u \/ denoisedPreviewUrl st = Some u.

Definition url_id (u : ObjectURL) : N :=
  match u with BlobURL id => id end.

(** The object URLs are in order: the ones on the page and the revoked
    ones were all handed out by [createObjectURL], none on the page is
    revoked, and the two previews do not share one. *)
Definition urls_sound (w : World) : Prop :=
  (forall u, shown (react w) u -> (url_id u < next_url w)%N)
  /\ (forall u, u ∈ revoked w -> (url_id u < next_url w)%N)
  /\ (forall u, shown (react w) u -> u ∉ revoked w)
  /\ (forall o d, originalPreviewUrl (react w) = Some o ->
                  denoisedPreviewUrl (react w) = Some d -> o <> d).

(** The fetch resolved with a response that is ok and whose body could be
    read: the case in which lines 127-130 run to their end. *)
Definition delivered (settled : Completion Response) : Prop :=
  exists response text,
    settled = Normal response /\ ok response = true
    /\ body response = Normal text.

(** There is an item to read and it cannot be used: it is not JSON, or it
    parses to [null], whose fields cannot be read. *)
Definition item_unusable (storage : gmap string string) : Prop :=
  exists text,
    storage !! STORAGE_KEY = Some text /\ text <> ""
    /\ ((exists e, JSON_parse text = Throw e)
        \/ JSON_parse text = Normal JNull
        \/ JSON_parse text = Normal JUndefined).

End WithBuiltins.

End App.
Export App.

(** ** A browser with a finite vocabulary

    To run the component on concrete inputs the four built-ins are
    tabulated on the texts and numbers the examples use. Each row is what
    the real built-in answers on that input; off the table the stand-ins
    answer as the real ones do on an unreadable input ([SyntaxError],
    [NaN]) or with a fixed text. *)

Module Demo.

(** The double-quote character. *)
Definition q : string := String (ascii_of_nat 34) EmptyString.

(** The text [{"method":"bogus","strength":7}]. *)
Definition text_bogus : string :=
  "{" +:+ q +:+ "method" +:+ q +:+ ":" +:+ q +:+ "bogus" +:+ q +:+ ","
      +:+ q +:+ "strength" +:+ q +:+ ":7}".

(** The text [{"method":"median","strength":0.25}]. *)
Definition text_median : string :=
  "{" +:+ q +:+ "method" +:+ q +:+ ":" +:+ q +:+ "median" +:+ q +:+ ","
      +:+ q +:+ "strength" +:+ q +:+ ":0.25}".

(** The text [{"method":"mean","strength":0.5}]. *)
Definition text_mean : string :=
  "{" +:+ q +:+ "method" +:+ q +:+ ":" +:+ q +:+ "mean" +:+ q +:+ ","
      +:+ q +:+ "strength" +:+ q +:+ ":0.5}".

(** The text [{"method":"cdae","strength":0.5}]. *)
Definition text_default : string :=
  "{" +:+ q +:+ "method" +:+ q +:+ ":" +:+ q +:+ "cdae" +:+ q +:+ ","
      +:+ q +:+ "strength" +:+ q +:+ ":0.5}".

(** The text [{"error":"Unsupported method"}]. *)
Definition text_error : string :=
  "{" +:+ q +:+ "error" +:+ q +:+ ":" +:+ q +:+ "Unsupported method" +:+ q +:+ "}".

Definition SyntaxError : JSError := mkError "Unexpected token".

Definition parse_table : list (string * JSValue) :=
  [ (text_bogus, settings_object (JStr "bogus") 7%float);
    (text_median, settings_object (JStr "median") 0.25%float);
    (text_mean, settings_object (JStr "mean") 0.5%float);
    (text_default, settings_object (JStr "cdae") 0.5%float);
    (text_error, JObj [("error", JStr "Unsupported method")]);
    ("null", JNull) ].

Definition JSON_parse (text : string) : Completion JSValue :=
  match assoc text parse_table with
  | Some v => Normal v
  | None => Throw SyntaxError
  end.

Definition JSON_stringify (v : JSValue) : string :=
  match find (fun row => same_value v (snd row)) parse_table with
  | Some row => fst row
  | None => "{}"
  end.

Definition number_table : list (float * string) :=
  [ (0%float, "0"); (0.25%float, "0.25"); (0.5%float, "0.5");
    (1%float, "1"); (7%float, "7") ].

Definition Number_toString (x : float) : string :=
  match find (fun row => PrimFloat.Leibniz.eqb x (fst row)) number_table with
  | Some row => snd row
  | None => "NaN"
  end.

Definition parseFloat (text : string) : float :=
  match find (fun row => String.eqb text (snd row)) number_table with
  | Some row => fst row
  | None => nan
  end.

Definition step : Event -> System -> System :=
  App.step JSON_parse JSON_stringify Number_toString parseFloat.
Definition reachable : gmap string string -> System -> Prop :=
  App.reachable JSON_parse JSON_stringify Number_toString parseFloat.

(** A picked file. *)
Definition photo : File := mkFile "photo.png" "PNG".

(** A first visit: nothing stored. The page mounts, the user picks a file
    and clicks Denoise; the request is in flight. *)
Definition fresh : System := mount JSON_parse JSON_stringify ∅.
Definition picked : System := step (EvFileChange (Some photo)) fresh.
Definition busy : System := step EvDenoiseClick picked.

(** A return visit with [{"method":"median","strength":0.25}] stored. *)
Definition storage_median : gmap string string :=
  {[ STORAGE_KEY := text_median ]}.
Definition returning : System :=
  step EvDenoiseClick
       (step (EvFileChange (Some photo))
             (mount JSON_parse JSON_stringify storage_median)).

(** A visit with [{"method":"bogus","strength":7}] stored, as another
    script of the origin or a hand edit can leave it. *)
Definition storage_bogus : gmap string string :=
  {[ STORAGE_KEY := text_bogus ]}.
Definition misled : System :=
  step EvDenoiseClick
       (step (EvFileChange (Some photo))
             (mount JSON_parse JSON_stringify storage_bogus)).

(** A 400 response with the body [{"error":"Unsupported method"}]. *)
Definition refusal : Response := mkResponse 400 (Normal text_error).

(** A 200 response with an image, and the page once the request of [busy]
    is answered with it. *)
Definition image : Response := mkResponse 200 (Normal "PNG").
Definition finished : System := step (EvFetchSettled 0 (Normal image)) busy.

(** A first visit on which the user switches to the mean filter. *)
Definition switched : System := step (EvMethodChange "mean") fresh.

(** A visit with the JSON text [null] stored. *)
Definition storage_null : gmap string string := {[ STORAGE_KEY := "null" ]}.

(** The text [{"strength":0.25}], what [JSON.parse] makes of it, and a
    visit with that text stored: settings with no method. *)
Definition text_strength : string :=
  "{" +:+ q +:+ "strength" +:+ q +:+ ":0.25}".
Definition JSON_parse' (text : string) : Completion JSValue :=
  if String.eqb text text_strength
  then Normal (JObj [("strength", JNum 0.25%float)])
  else JSON_parse text.
Definition storage_strength : gmap string string :=
  {[ STORAGE_KEY := text_strength ]}.

End Demo.

(** ** Properties of the value model *)

Section ValueFacts.

(** Induction on values, with the hypothesis available for the elements
    of an array and the fields of an object. *)
Lemma JSValue_nested_ind (P : JSValue -> Prop) :
  P JUndefined -> P JNull -> (forall b, P (JBool b)) ->
  (forall x, P (JNum x)) -> (forall s, P (JStr s)) ->
  (forall elems, Forall P elems -> P (JArr elems)) ->
  (forall props, Forall (fun kv => P (snd kv)) props -> P (JObj props)) ->
  forall v, P v.
Proof.
  intros Hu Hn Hb Hx Hs Ha Ho.
  fix IH 1.
  intros [ | | b | x | s | elems | props ];
    [ apply Hu | apply Hn | apply Hb | apply Hx | apply Hs | | ].
  - apply Ha. induction elems as [ | e rest IHrest ];
      constructor; [ apply IH | apply IHrest ].
  - apply Ho. induction props as [ | [k e] rest IHrest ];
      constructor; [ apply IH | apply IHrest ].
Qed.

Lemma float_same_refl (x : float) : PrimFloat.Leibniz.eqb x x = true.
Proof. by apply FloatAxioms.Leibniz.eqb_spec. Qed.

Lemma same_value_refl (v : JSValue) : same_value v v = true.
Proof.
  induction v as [ | | b | x | s | elems IH | props IH ]
    using JSValue_nested_ind; simpl; try reflexivity.
  - by destruct b.
  - apply float_same_refl.
  - apply String.eqb_refl.
  - induction IH as [ | e rest He _ IHrest ]; [ done | ].
    by rewrite He, IHrest.
  - induction IH as [ | [k e] rest He _ IHrest ]; [ done | ].
    simpl in He. by rewrite String.eqb_refl, He, IHrest.
Qed.

Lemma same_value_eq (a b : JSValue) : same_value a b = true -> a = b.
Proof.
  revert b.
  induction a as [ | | x | x | x | elems IH | props IH ]
    using JSValue_nested_ind; intros [ | | y | y | y | ys | qs ];
    simpl; try discriminate; auto.
  - intros H. apply Bool.eqb_prop in H. by subst.
  - intros H. apply FloatAxioms.Leibniz.eqb_spec in H. by subst.
  - intros H. apply String.eqb_eq in H. by subst.
  - intros H. f_equal. revert ys H.
    induction IH as [ | e rest He _ IHrest ]; intros [ | y ys ] H;
      try discriminate; [ done | ].
    apply andb_true_iff in H as [H1 H2].
    f_equal; [ by apply He | by apply IHrest ].
  - intros H. f_equal. revert qs H.
    induction IH as [ | [k e] rest He _ IHrest ];
      intros [ | [k' y] qs ] H; try discriminate; [ done | ].
    apply andb_true_iff in H as [H12 H3].
    apply andb_true_iff in H12 as [H1 H2].
    apply String.eqb_eq in H1. simpl in He.
    f_equal; [ f_equal; [ done | by apply He ] | by apply IHrest ].
Qed.

(** The dependency test of the save effect sees exactly the changes of
    [method] and [strength]. *)
Lemma deps_changed_false (prev next : AppState) :
  deps_changed prev next = false <->
  method prev = method next /\ strength prev = strength next.
Proof.
  unfold deps_changed. rewrite negb_false_iff, andb_true_iff. split.
  - intros [H1 H2]. split; [ by apply same_value_eq | ].
    by apply FloatAxioms.Leibniz.eqb_spec.
  - intros [-> ->]. split; [ apply same_value_refl | apply float_same_refl ].
Qed.

End ValueFacts.

(** ** Properties of the monad *)

Section MonadFacts.

Lemma never_throws_ret {A} (a : A) : never_throws (mret a).
Proof. intros w. by exists a. Qed.

Lemma never_throws_modify (f : World -> World) : never_throws (modify f).
Proof. intros w. by exists tt. Qed.

Lemma never_throws_bind {A B} (m : M A) (f : A -> M B) :
  never_throws m -> (forall a, never_throws (f a)) -> never_throws (m ≫= f).
Proof.
  intros Hm Hf w. unfold mbind, M_bind.
  destruct (Hm w) as [a Ha]. destruct (m w) as [r w']. simpl in Ha. subst r.
  apply Hf.
Qed.

Lemma never_throws_try_catch {A} (body : M A) (handler : JSError -> M A) :
  (forall e, never_throws (handler e)) -> never_throws (try_catch body handler).
Proof.
  intros Hh w. unfold try_catch.
  destruct (body w) as [[a | e] w']; [ by exists a | apply Hh ].
Qed.

Lemma never_throws_try_finally {A} (body : M A) (fin : M unit) :
  never_throws body -> never_throws fin -> never_throws (try_finally body fin).
Proof.
  intros Hb Hf w. unfold try_finally.
  destruct (Hb w) as [a Ha]. destruct (body w) as [r w']. simpl in Ha. subst r.
  destruct (Hf w') as [u Hu]. destruct (fin w') as [r w'']. simpl in Hu. subst r.
  by exists a.
Qed.

Lemma never_throws_try_until_await {A} (before : M A)
    (handler : JSError -> M unit) (fin : M unit) :
  (forall e, never_throws (handler e)) -> never_throws fin ->
  never_throws (try_until_await before handler fin).
Proof.
  intros Hh Hf w. unfold try_until_await.
  destruct (before w) as [[a | e] w']; [ by exists (Some a) | ].
  apply never_throws_bind; [ | intros; apply never_throws_ret ].
  by apply never_throws_try_finally.
Qed.

Lemma keeps_ret {A B} (proj : World -> B) (a : A) : keeps proj (mret a).
Proof. by intros w. Qed.

Lemma keeps_throw {A B} (proj : World -> B) (e : JSError) :
  keeps proj (mthrow e : M A).
Proof. by intros w. Qed.

Lemma keeps_lift {A B} (proj : World -> B) (c : Completion A) :
  keeps proj (lift c).
Proof. by intros w. Qed.

Lemma keeps_bind {A A' B} (proj : World -> B) (m : M A) (f : A -> M A') :
  keeps proj m -> (forall a, keeps proj (f a)) -> keeps proj (m ≫= f).
Proof.
  intros Hm Hf w. unfold mbind, M_bind.
  specialize (Hm w). destruct (m w) as [[a | e] w']; simpl in *.
  - by rewrite Hf.
  - done.
Qed.

Lemma keeps_try_catch {A B} (proj : World -> B) (body : M A)
    (handler : JSError -> M A) :
  keeps proj body -> (forall e, keeps proj (handler e)) ->
  keeps proj (try_catch body handler).
Proof.
  intros Hb Hh w. unfold try_catch.
  specialize (Hb w). destruct (body w) as [[a | e] w']; simpl in *.
  - done.
  - by rewrite Hh.
Qed.

Lemma keeps_try_finally {A B} (proj : World -> B) (body : M A) (fin : M unit) :
  keeps proj body -> keeps proj fin -> keeps proj (try_finally body fin).
Proof.
  intros Hb Hf w. unfold try_finally.
  specialize (Hb w). destruct (body w) as [r w']. simpl in Hb.
  specialize (Hf w'). destruct (fin w') as [[u | e] w'']; simpl in *; congruence.
Qed.

Lemma keeps_try_until_await {A B} (proj : World -> B) (before : M A)
    (handler : JSError -> M unit) (fin : M unit) :
  keeps proj before -> (forall e, keeps proj (handler e)) -> keeps proj fin ->
  keeps proj (try_until_await before handler fin).
Proof.
  intros Hb Hh Hf w. unfold try_until_await.
  specialize (Hb w). destruct (before w) as [[a | e] w']; simpl in *.
  - done.
  - rewrite <- Hb. apply keeps_bind; [ | intros; apply keeps_ret ].
    by apply keeps_try_finally.
Qed.

End MonadFacts.

(** Decompose a computation along its combinators; what is left are the
    primitives, each of which shows what it touches by evaluation. *)
Ltac frame :=
  repeat first
    [ progress intros
    | apply keeps_bind
    | apply keeps_try_catch
    | apply keeps_try_finally
    | apply keeps_try_until_await
    | apply keeps_ret
    | apply keeps_lift
    | apply keeps_throw
    | match goal with
      | |- keeps _ (match ?x with _ => _ end) => destruct x
      end
    | (intros ?; reflexivity) ].

Ltac total :=
  repeat first
    [ progress intros
    | apply never_throws_try_catch
    | apply never_throws_try_finally
    | apply never_throws_try_until_await
    | apply never_throws_bind
    | apply never_throws_ret
    | apply never_throws_modify
    | match goal with
      | |- never_throws (match ?x with _ => _ end) => destruct x
      end ].

(** The definitions a handler is made of. *)
Ltac unfold_handlers :=
  unfold App.handleFileChange, App.handleMethodChange,
    App.handleStrengthChange, App.handleDenoise_begin,
    App.handleDenoise_resume, App.handleDownload, App.handleReset,
    App.error_message_of, App.response_json, App.response_blob,
    App.new_Error, App.build_form, App.denoise_catch, App.denoise_finally,
    App.loadSettings, App.saveSettings.

(** Turn [proj (snd (m w)) = proj w] into [keeps proj m] and decompose. *)
Ltac by_frame :=
  lazymatch goal with
  | |- ?proj (snd (?m ?w)) = _ =>
      apply (fun H : keeps proj m => H w); unfold_handlers; frame
  | |- ?f (?g (snd (?m ?w))) = _ =>
      apply (fun H : keeps (fun w' => f (g w')) m => H w);
      unfold_handlers; frame
  end.

Section HandlerFacts.

Variable JSON_parse : string -> Completion JSValue.
Variable JSON_stringify : JSValue -> string.
Variable Number_toString : float -> string.
Variable parseFloat : string -> float.

Abbreviation handleDenoise_begin := (handleDenoise_begin Number_toString).
Abbreviation handleDenoise_resume := (handleDenoise_resume JSON_parse Number_toString).
Abbreviation loadSettings := (loadSettings JSON_parse).
Abbreviation saveSettings := (saveSettings JSON_stringify).
Abbreviation step := (step JSON_parse JSON_stringify Number_toString parseFloat).
Abbreviation dispatch := (dispatch JSON_parse Number_toString parseFloat).
Abbreviation rerender := (rerender JSON_stringify).
Abbreviation mount := (mount JSON_parse JSON_stringify).

Lemma denoise_catch_total e : never_throws (denoise_catch e).
Proof. unfold denoise_catch. total. Qed.

Lemma handleDenoise_resume_total settled :
  never_throws (handleDenoise_resume settled).
Proof.
  unfold App.handleDenoise_resume. total.
Qed.

Lemma loadSettings_total : never_throws loadSettings.
Proof. unfold App.loadSettings. total. Qed.

Lemma handleDenoise_begin_total snap : never_throws (handleDenoise_begin snap).
Proof. unfold App.handleDenoise_begin. total. Qed.

(** *** What each handler leaves alone *)

(** No handler writes to localStorage. *)
Lemma handlers_keep_storage e s :
  localStorage (world (dispatch e s)) = localStorage (world s).
Proof.
  destruct e; simpl; unfold run; try reflexivity; by_frame.
Qed.

(** Re-rendering touches nothing but the storage. *)
Lemma rerender_react prev w : react (rerender prev w) = react w.
Proof. unfold App.rerender. by destruct (deps_changed _ _). Qed.

Lemma step_ui e s : ui (step e s) = ui (dispatch e s).
Proof. apply rerender_react. Qed.

Lemma step_inflight e s : inflight (step e s) = inflight (dispatch e s).
Proof. done. Qed.

(** *** The error message of a failed request *)

Abbreviation error_message_of := (error_message_of JSON_parse).
Abbreviation described_error_message := (described_error_message JSON_parse).

(** The code computes the message the interface description states, and
    changes nothing doing so. *)
Lemma error_message_of_described response w :
  error_message_of response w = (Normal (described_error_message response), w).
Proof.
  unfold App.error_message_of, App.described_error_message, App.response_json,
    try_catch, mbind, M_bind, lift, fallback_message.
  destruct (body response) as [text | e]; [ | done ].
  destruct (JSON_parse text) as [data | e]; [ | done ].
  destruct data as [ | | [ | ] | x | t | elems | props ]; simpl; try done.
  - by destruct (negb _).
  - by destruct (negb _).
  - destruct (assoc "error" props) as [e | ]; simpl; [ | done ].
    by destruct (ToBoolean e).
Qed.

(** The error a response that is not ok ends up throwing: [new Error] of
    its message, or the [TypeError] of a message without a string form. *)
Lemma handleDenoise_resume_failed response w :
  ok response = false ->
  handleDenoise_resume (Normal response) w =
  try_finally
    (denoise_catch
       match ToString Number_toString (described_error_message response) with
       | Normal text => mkError text
       | Throw e => e
       end)
    denoise_finally w.
Proof.
  intros Hok.
  unfold App.handleDenoise_resume, try_finally, try_catch, App.new_Error.
  unfold mbind, M_bind, lift at 1. rewrite Hok.
  change (negb false) with true. cbv beta iota.
  rewrite error_message_of_described. unfold lift.
  by destruct (ToString _ _).
Qed.

Lemma denoise_catch_finally_spec e w :
  try_finally (denoise_catch e) denoise_finally w =
  (Normal tt,
   mkWorld (mkAppState (selectedFile (react w)) (originalPreviewUrl (react w))
              (denoisedPreviewUrl (react w)) (method (react w))
              (strength (react w)) false ("Error: " +:+ message e))
           (localStorage w) (revoked w) (next_url w)
           (console w ++ [message e]) (sent w) (downloads w)).
Proof. reflexivity. Qed.

(** C7: on a response that is not ok the client decides its error message
    by the [error] field of the JSON body alone: that field when the body
    parses and the field is truthy, the text "Server error: <status>" when
    the body does not parse or has no truthy [error] field. That message is
    the one the handler logs and shows (behind "Error: "), and whatever the
    fetch settled with, no exception leaves the handler. *)
Theorem failed_response_message (response : Response) (w : World) :
  ok response = false ->
  error_message_of response w = (Normal (described_error_message response), w)
  /\ (forall text,
        ToString Number_toString (described_error_message response) = Normal text ->
        let w' := run (handleDenoise_resume (Normal response)) w in
        console w' = (console w ++ [text])%list
        /\ statusMessage (react w') = "Error: " +:+ text)
  /\ (forall settled, fst (handleDenoise_resume settled w) = Normal tt).
Proof.
  intros Hok. split; [ apply error_message_of_described | split ].
  - intros text Htext. cbv zeta. unfold run.
    rewrite handleDenoise_resume_failed by done.
    by rewrite denoise_catch_finally_spec, Htext.
  - intros settled.
    destruct (handleDenoise_resume_total settled w) as [[] H]. exact H.
Qed.

(** C1, as the code has it: when a response that is not ok carries a JSON
    body whose [error] field is a non-empty string, the status message is
    the text "Error: " followed by that string, character for character. *)
Theorem failed_response_status (response : Response) (text : string)
    (data : JSValue) (msg : string) (w : World) :
  ok response = false ->
  body response = Normal text ->
  JSON_parse text = Normal data ->
  Get data "error" = Normal (JStr msg) ->
  msg <> "" ->
  statusMessage (react (run (handleDenoise_resume (Normal response)) w))
  = "Error: " +:+ msg.
Proof.
  intros Hok Hbody Hparse Hget Hmsg. unfold run.
  rewrite handleDenoise_resume_failed by done.
  rewrite denoise_catch_finally_spec. simpl.
  assert (described_error_message response = JStr msg) as ->; [ | done ].
  unfold App.described_error_message. rewrite Hbody, Hparse.
  destruct data as [ | | b | x | t | elems | props ]; try discriminate.
  simpl in Hget. destruct (assoc "error" props) as [e | ]; [ | discriminate ].
  simpl in Hget. injection Hget as ->. simpl.
  destruct (String.eqb_spec msg ""); [ contradiction | done ].
Qed.

(** *** The load effect *)

Abbreviation stored_field := (stored_field JSON_parse).

Ltac run_load w :=
  unfold run, App.loadSettings, App.stored_field, App.stored_settings,
    try_catch, mbind, M_bind, localStorage_getItem, lift;
  destruct (localStorage w !! STORAGE_KEY) as [text | ]; [ | done ];
  destruct (String.eqb text ""); [ done | ];
  destruct (JSON_parse text) as [[ | | b | x | t | elems | props ] | e];
  try done; simpl;
  repeat match goal with
         | |- context [assoc ?k ?props] => destruct (assoc k props) as [[]|]; simpl
         | |- context [if ?c then _ else _] => destruct c; simpl
         end; try done.

(** What the load effect does to [method]: the stored method when it is
    truthy, nothing otherwise. *)
Lemma loadSettings_method w :
  method (react (run loadSettings w)) =
  if ToBoolean (stored_field (localStorage w) "method")
  then stored_field (localStorage w) "method"
  else method (react w).
Proof. run_load w. Qed.

(** What the load effect does to [strength]: the stored strength when it
    is a number, nothing otherwise. *)
Lemma loadSettings_strength w :
  strength (react (run loadSettings w)) =
  match stored_field (localStorage w) "strength" with
  | JNum v => v
  | _ => strength (react w)
  end.
Proof. run_load w. Qed.

(** The load effect changes [method] and [strength] only. *)
Lemma loadSettings_rest w :
  let s := react w in
  let s' := react (run loadSettings w) in
  selectedFile s' = selectedFile s
  /\ originalPreviewUrl s' = originalPreviewUrl s
  /\ denoisedPreviewUrl s' = denoisedPreviewUrl s
  /\ isProcessing s' = isProcessing s
  /\ statusMessage s' = statusMessage s.
Proof. cbv zeta. unfold run. repeat split; by_frame. Qed.

Lemma loadSettings_world w :
  localStorage (run loadSettings w) = localStorage w
  /\ sent (run loadSettings w) = sent w
  /\ revoked (run loadSettings w) = revoked w.
Proof. unfold run. repeat split; by_frame. Qed.

(** *** [handleDenoise] up to the request *)

Abbreviation denoise_form := (denoise_form Number_toString).

(** The three ways the first half of [handleDenoise] can go. *)
Lemma handleDenoise_begin_cases snap w :
  let r := fst (handleDenoise_begin snap w) in
  let w' := snd (handleDenoise_begin snap w) in
  match selectedFile snap with
  | None =>
      r = Normal None /\ sent w' = sent w
      /\ isProcessing (react w') = isProcessing (react w)
  | Some file =>
      match ToString Number_toString (method snap) with
      | Normal m =>
          let request :=
            mkRequest API_URL "POST" (denoise_form file m (strength snap)) in
          r = Normal (Some request) /\ sent w' = (sent w ++ [request])%list
          /\ isProcessing (react w') = true
      | Throw e =>
          r = Normal None /\ sent w' = sent w
          /\ isProcessing (react w') = false
      end
  end.
Proof.
  cbv zeta. unfold App.handleDenoise_begin, App.build_form.
  destruct (selectedFile snap) as [file | ]; [ | done ].
  unfold try_until_await, mbind, M_bind, lift.
  destruct (denoisedPreviewUrl snap) as [u | ];
    by destruct (ToString Number_toString (method snap)) as [m | e].
Qed.

(** *** What an event does to each part of the system *)

Lemma dispatch_method e s :
  method (ui (dispatch e s)) =
  match e with
  | EvMethodChange value => JStr value
  | _ => method (ui s)
  end.
Proof. unfold ui. destruct e; simpl; unfold run; try reflexivity; by_frame. Qed.

Lemma dispatch_strength e s :
  strength (ui (dispatch e s)) =
  match e with
  | EvStrengthChange value => parseFloat value
  | _ => strength (ui s)
  end.
Proof. unfold ui. destruct e; simpl; unfold run; try reflexivity; by_frame. Qed.

Lemma dispatch_sent e s :
  e <> EvDenoiseClick -> sent (world (dispatch e s)) = sent (world s).
Proof.
  intros He. destruct e; simpl; unfold run; try reflexivity; try by_frame.
  done.
Qed.

Lemma dispatch_isProcessing e s :
  isProcessing (ui (dispatch e s)) =
  match e with
  | EvDenoiseClick =>
      isProcessing (react (snd (handleDenoise_begin (ui s) (world s))))
  | EvFetchSettled _ _ => false
  | _ => isProcessing (ui s)
  end.
Proof.
  unfold ui. destruct e; simpl; unfold run; try reflexivity; try by_frame.
  unfold App.handleDenoise_resume, try_finally.
  destruct (try_catch _ _ _) as [r w']. reflexivity.
Qed.

(** *** The page after mounting *)

Lemma mount_ui storage :
  ui (mount storage) = react (run loadSettings (initial_world storage)).
Proof. unfold ui, App.mount. simpl. by rewrite rerender_react. Qed.

Lemma mount_sent storage : sent (world (mount storage)) = [].
Proof.
  unfold App.mount, App.rerender. simpl.
  destruct (deps_changed _ _); simpl; apply loadSettings_world.
Qed.

(** *** One request at a time *)

Abbreviation reachable :=
  (reachable JSON_parse JSON_stringify Number_toString parseFloat).
Abbreviation enabled := (enabled parseFloat).

(** The flag counts the requests in flight. *)
Lemma inflight_invariant storage s :
  reachable storage s ->
  length (inflight s) = if isProcessing (ui s) then 1 else 0.
Proof.
  induction 1 as [ | s e Hreach IH Hen ].
  - rewrite mount_ui.
    destruct (loadSettings_rest (initial_world storage)) as (_ & _ & _ & -> & _).
    done.
  - rewrite step_ui, step_inflight, dispatch_isProcessing.
    destruct e; simpl; try exact IH.
    + (* the Denoise button *)
      simpl in Hen. unfold denoise_button_disabled in Hen.
      apply negb_true_iff in Hen. fold (ui s) in Hen. rewrite Hen in IH.
      pose proof (handleDenoise_begin_cases (ui s) (world s)) as Hb.
      cbv zeta in Hb. fold (ui s).
      destruct (selectedFile (ui s)) as [file | ].
      * destruct (ToString Number_toString (method (ui s))) as [m | err];
          destruct Hb as (-> & _ & ->); [ | done ].
        rewrite length_app, IH. done.
      * destruct Hb as (-> & _ & ->). fold (ui s). by rewrite Hen.
    + (* the fetch settles *)
      simpl in Hen. apply bool_decide_eq_true in Hen.
      destruct (isProcessing (ui s)); [ | lia ].
      destruct (inflight s) as [ | r [ | r' rest ] ]; simpl in *; try lia.
      by destruct i; [ | lia ].
Qed.

(** C2: at most one denoise request is in flight. In every state the page
    can reach, [isProcessing] is true exactly while a request is
    outstanding, and the Denoise button, disabled by [isProcessing], then
    starts no second one: a request begins only from a state with none in
    flight. *)
Theorem single_request_in_flight (storage : gmap string string) (s : System) :
  reachable storage s ->
  length (inflight s) <= 1
  /\ (isProcessing (ui s) = true <-> inflight s <> [])
  /\ (inflight s <> [] -> enabled EvDenoiseClick s = false)
  /\ (forall e, enabled e s = true ->
        length (inflight s) < length (inflight (step e s)) ->
        e = EvDenoiseClick /\ inflight s = []).
Proof.
  intros Hreach. pose proof (inflight_invariant _ _ Hreach) as Hinv.
  assert (isProcessing (ui s) = true <-> inflight s <> []) as Hflag.
  { destruct (isProcessing (ui s)), (inflight s); simpl in Hinv; split;
      congruence. }
  split; [ destruct (isProcessing (ui s)); lia | ].
  split; [ exact Hflag | ].
  split.
  - intros Hne. apply Hflag in Hne. simpl.
    unfold denoise_button_disabled. fold (ui s). by rewrite Hne.
  - intros e Hen Hgrow.
    pose proof (inflight_invariant _ _ (reachable_step _ _ _ _ _ _ _ Hreach Hen))
      as Hinv'.
    destruct (isProcessing (ui s)) eqn:Hp.
    + destruct (isProcessing (ui (step e s))); lia.
    + destruct (inflight s) eqn:Hin; [ | done ]. split; [ | done ].
      rewrite step_inflight in Hgrow.
      destruct e as [ | | | | | | i settled ]; simpl in Hgrow;
        rewrite ?Hin in Hgrow; simpl in Hgrow; try lia; try done.
Qed.

(** *** The settings stay within what the controls offer *)

Lemma rerender_sent prev w : sent (rerender prev w) = sent w.
Proof. unfold App.rerender. by destruct (deps_changed _ _). Qed.

(** The requests sent by a step: the ones before, and after a click on
    Denoise with a file selected and a method that has a string form, the
    one built from the state of that render. *)
Lemma step_sent e s :
  sent (world (step e s)) = sent (world s)
  \/ exists file m,
       selectedFile (ui s) = Some file
       /\ ToString Number_toString (method (ui s)) = Normal m
       /\ sent (world (step e s))
          = (sent (world s)
             ++ [mkRequest API_URL "POST" (denoise_form file m (strength (ui s)))])%list.
Proof.
  unfold App.step. simpl. rewrite rerender_sent.
  destruct e; try (left; by apply dispatch_sent).
  simpl. pose proof (handleDenoise_begin_cases (ui s) (world s)) as Hb.
  cbv zeta in Hb. fold (ui s).
  destruct (selectedFile (ui s)) as [file | ]; [ | left; apply Hb ].
  destruct (ToString Number_toString (method (ui s))) as [m | err];
    [ | left; apply Hb ].
  right. exists file, m. repeat split. apply Hb.
Qed.

Lemma strength_invariant storage s :
  stored_strength_ok JSON_parse storage ->
  reachable storage s ->
  in_unit_interval (strength (ui s)) = true.
Proof.
  intros Hok. induction 1 as [ | s e Hreach IH Hen ].
  - rewrite mount_ui, loadSettings_strength. simpl.
    unfold stored_strength_ok in Hok.
    by destruct (stored_field storage "strength").
  - rewrite step_ui, dispatch_strength. by destruct e.
Qed.

Lemma method_invariant storage s :
  stored_method_ok JSON_parse storage ->
  reachable storage s ->
  recognized (method (ui s)).
Proof.
  intros Hok. induction 1 as [ | s e Hreach IH Hen ].
  - rewrite mount_ui, loadSettings_method. simpl.
    destruct (ToBoolean (stored_field storage "method")) eqn:Ht.
    + by apply Hok.
    + exists "cdae". split; [ done | ]. unfold METHOD_OPTIONS. set_solver.
  - rewrite step_ui, dispatch_method. destruct e; try exact IH.
    simpl in Hen. apply bool_decide_eq_true in Hen. by exists value.
Qed.

(** C3, as the code has it: the slider keeps [strength] in [0,1], and the
    load effect does so when the stored strength, if it is a number, lies in
    [0,1]. From such a storage, in every state the page can reach the
    strength is in [0,1], and the strength field of every request sent is
    [toString()] of a number in [0,1]. *)
Theorem strength_stays_in_unit_interval (storage : gmap string string)
    (s : System) :
  stored_strength_ok JSON_parse storage ->
  reachable storage s ->
  in_unit_interval (strength (ui s)) = true
  /\ Forall (fun request =>
               exists x, in_unit_interval x = true
                 /\ form_get "strength" (req_body request)
                    = Some (FormText (Number_toString x)))
            (sent (world s)).
Proof.
  intros Hok Hreach. split; [ by eapply strength_invariant | ].
  induction Hreach as [ | s e Hreach IH Hen ].
  - rewrite mount_sent. constructor.
  - destruct (step_sent e s) as [-> | (file & m & _ & _ & ->)]; [ done | ].
    apply Forall_app. split; [ done | ].
    constructor; [ | constructor ].
    exists (strength (ui s)). split; [ by eapply strength_invariant | done ].
Qed.

(** C4, as the code has it: the select stores one of its four option
    values, and the load effect keeps [method] among them when the stored
    method, if it is truthy, is one of them. From such a storage, in every
    state the page can reach the method is one of cdae, mean, median and
    wavelet, and so is the method field of every request sent. *)
Theorem method_stays_recognized (storage : gmap string string) (s : System) :
  stored_method_ok JSON_parse storage ->
  reachable storage s ->
  recognized (method (ui s))
  /\ Forall (fun request =>
               exists name, name ∈ METHOD_OPTIONS
                 /\ form_get "method" (req_body request)
                    = Some (FormText name))
            (sent (world s)).
Proof.
  intros Hok Hreach. split; [ by eapply method_invariant | ].
  induction Hreach as [ | s e Hreach IH Hen ].
  - rewrite mount_sent. constructor.
  - destruct (step_sent e s) as [-> | (file & m & _ & Hm & ->)]; [ done | ].
    apply Forall_app. split; [ done | ].
    constructor; [ | constructor ].
    destruct (method_invariant _ _ Hok Hreach) as (name & Hname & Hin).
    rewrite Hname in Hm. injection Hm as <-. by exists name.
Qed.

(** *** Saving the settings *)

Lemma step_storage e s :
  localStorage (world (step e s)) =
  if deps_changed (ui s) (ui (step e s))
  then <[STORAGE_KEY :=
           JSON_stringify (settings_object (method (ui (step e s)))
                                           (strength (ui (step e s))))]>
         (localStorage (world s))
  else localStorage (world s).
Proof.
  rewrite step_ui. unfold App.step, App.rerender, ui. simpl.
  destruct (deps_changed _ _); simpl; by rewrite handlers_keep_storage.
Qed.

(** After mounting, the item holds the settings in force. *)
Lemma mount_storage storage :
  localStorage (world (mount storage)) =
  <[STORAGE_KEY :=
      JSON_stringify (settings_object (method (ui (mount storage)))
                                      (strength (ui (mount storage))))]> storage.
Proof.
  rewrite mount_ui. unfold App.mount, App.rerender. simpl.
  destruct (deps_changed _ _) eqn:Hd; simpl.
  - destruct (loadSettings_world (initial_world storage)) as (-> & _).
    simpl. by rewrite insert_insert_eq.
  - destruct (loadSettings_world (initial_world storage)) as (-> & _).
    apply deps_changed_false in Hd as [<- <-]. done.
Qed.

(** At every moment the item holds the settings in force, and nothing
    else in the storage differs from what the page found. *)
Lemma storage_invariant storage s :
  reachable storage s ->
  localStorage (world s) =
  <[STORAGE_KEY :=
      JSON_stringify (settings_object (method (ui s)) (strength (ui s)))]>
    storage.
Proof.
  induction 1 as [ | s e Hreach IH Hen ]; [ apply mount_storage | ].
  rewrite step_storage. destruct (deps_changed _ _) eqn:Hd.
  - by rewrite IH, insert_insert_eq.
  - apply deps_changed_false in Hd as [<- <-]. exact IH.
Qed.

(** C5: after every change of [method] or [strength] the item
    "image-denoiser-settings-v1" of localStorage is the JSON text of the
    object with the two fields [method] and [strength] at their current
    values, and no other item is written. In every state the page can reach
    the storage is the one it found with that one item set to the current
    settings; an event that changes a setting rewrites that item with the
    new values; no event changes an item under another key. *)
Theorem settings_saved_on_change (storage : gmap string string) (s : System)
    (e : Event) :
  reachable storage s ->
  localStorage (world s) =
  <[STORAGE_KEY :=
      JSON_stringify (JObj [("method", method (ui s));
                            ("strength", JNum (strength (ui s)))])]> storage
  /\ (method (ui (step e s)) <> method (ui s)
      \/ strength (ui (step e s)) <> strength (ui s) ->
      localStorage (world (step e s)) =
      <[STORAGE_KEY :=
          JSON_stringify (JObj [("method", method (ui (step e s)));
                                ("strength", JNum (strength (ui (step e s))))])]>
        (localStorage (world s)))
  /\ (forall k, k <> STORAGE_KEY ->
        localStorage (world (step e s)) !! k = localStorage (world s) !! k).
Proof.
  intros Hreach. split; [ by apply storage_invariant | split ].
  - intros Hchange. rewrite step_storage.
    destruct (deps_changed _ _) eqn:Hd; [ done | ].
    apply deps_changed_false in Hd as [Hm Hs].
    destruct Hchange; congruence.
  - intros k Hk. rewrite step_storage.
    destruct (deps_changed _ _); [ | done ].
    by rewrite lookup_insert_ne.
Qed.

(** Settings the page saved itself respect the controls, when reading
    back what was written gives the object that was written. *)
Lemma own_settings_ok storage name x :
  storage !! STORAGE_KEY
  = Some (JSON_stringify (settings_object (JStr name) x)) ->
  JSON_parse (JSON_stringify (settings_object (JStr name) x))
  = Normal (settings_object (JStr name) x) ->
  name ∈ METHOD_OPTIONS ->
  in_unit_interval x = true ->
  stored_method_ok JSON_parse storage /\ stored_strength_ok JSON_parse storage.
Proof.
  intros Hitem Hparse Hname Hx.
  unfold stored_method_ok, stored_strength_ok, App.stored_field,
    App.stored_settings.
  rewrite Hitem. destruct (String.eqb _ ""); [ done | ].
  rewrite Hparse. simpl. split; [ | done ]. intros _. by exists name.
Qed.

(** *** The request *)

(** C6: when [handleDenoise] runs with a file selected, the body of the
    request it sends has exactly three fields, in this order: [file], the
    selected file; [method], the method as a string; [strength],
    [strength.toString()]. The strength field is there whatever the method
    is. A request is sent whenever the method has a string form, as every
    string has. *)
Theorem denoise_request_form (snap : AppState) (file : File) (w : World) :
  selectedFile snap = Some file ->
  (forall request,
     fst (handleDenoise_begin snap w) = Normal (Some request) ->
     exists m,
       ToString Number_toString (method snap) = Normal m
       /\ req_body request =
          [("file", FormFile file);
           ("method", FormText m);
           ("strength", FormText (Number_toString (strength snap)))]
       /\ sent (snd (handleDenoise_begin snap w)) = (sent w ++ [request])%list)
  /\ (forall m,
        ToString Number_toString (method snap) = Normal m ->
        exists request,
          fst (handleDenoise_begin snap w) = Normal (Some request)).
Proof.
  intros Hfile.
  pose proof (handleDenoise_begin_cases snap w) as Hb. cbv zeta in Hb.
  rewrite Hfile in Hb. split.
  - intros request Hr.
    destruct (ToString Number_toString (method snap)) as [m | err];
      destruct Hb as (Hfst & Hsent & _); rewrite Hfst in Hr; [ | done ].
    injection Hr as <-. by exists m.
  - intros m Hm. rewrite Hm in Hb. destruct Hb as (Hfst & _). eauto.
Qed.

(** C8: [handleDenoise] with no file selected sets the status message to
    "Please upload an image first." and returns; it sends no request and
    changes nothing else. *)
Theorem denoise_without_file (snap : AppState) (w : World) :
  selectedFile snap = None ->
  let w' := snd (handleDenoise_begin snap w) in
  fst (handleDenoise_begin snap w) = Normal None
  /\ statusMessage (react w') = "Please upload an image first."
  /\ selectedFile (react w') = selectedFile (react w)
  /\ originalPreviewUrl (react w') = originalPreviewUrl (react w)
  /\ denoisedPreviewUrl (react w') = denoisedPreviewUrl (react w)
  /\ method (react w') = method (react w)
  /\ strength (react w') = strength (react w)
  /\ isProcessing (react w') = isProcessing (react w)
  /\ sent w' = sent w
  /\ localStorage w' = localStorage w
  /\ revoked w' = revoked w.
Proof.
  intros Hfile. cbv zeta. unfold App.handleDenoise_begin. by rewrite Hfile.
Qed.

(** *** Loading the settings *)

(** C9, as the code has it: whatever localStorage holds under
    "image-denoiser-settings-v1" (nothing, text that is not JSON, JSON of
    any shape) the load effect lets no exception out. Each setting has its
    own guard: [method] keeps its default "cdae" whenever the stored method
    is falsy, and [strength] keeps its default 0.5 whenever the stored
    strength is not a number. With nothing readable stored, both fields
    read as [undefined]. *)
Theorem loadSettings_safe (storage : gmap string string) :
  let w := initial_world storage in
  fst (loadSettings w) = Normal tt
  /\ (ToBoolean (stored_field storage "method") = false ->
      method (react (run loadSettings w)) = JStr "cdae")
  /\ (is_number (stored_field storage "strength") = false ->
      strength (react (run loadSettings w)) = 0.5%float).
Proof.
  cbv zeta. split; [ | split ].
  - destruct (loadSettings_total (initial_world storage)) as [[] H]. exact H.
  - intros Hfalsy. rewrite loadSettings_method. simpl. by rewrite Hfalsy.
  - intros Hnum. rewrite loadSettings_strength. simpl.
    by destruct (stored_field storage "strength").
Qed.

(** *** Reset *)

(** C10: [handleReset] revokes the object URLs that are not null, sets
    [selectedFile], [originalPreviewUrl] and [denoisedPreviewUrl] to null
    and the status message to the empty string; [method], [strength] and
    [isProcessing] are as before, and so is localStorage: the saved
    preferences survive a reset. *)
Theorem reset_keeps_preferences (s : System) :
  let s' := step EvResetClick s in
  selectedFile (ui s') = None
  /\ originalPreviewUrl (ui s') = None
  /\ denoisedPreviewUrl (ui s') = None
  /\ statusMessage (ui s') = ""
  /\ method (ui s') = method (ui s)
  /\ strength (ui s') = strength (ui s)
  /\ isProcessing (ui s') = isProcessing (ui s)
  /\ revoked (world s') =
     (revoked (world s) ++ option_list (originalPreviewUrl (ui s))
                        ++ option_list (denoisedPreviewUrl (ui s)))%list
  /\ localStorage (world s') = localStorage (world s)
  /\ inflight s' = inflight s.
Proof.
  cbv zeta.
  assert (deps_changed (ui s) (ui (step EvResetClick s)) = false) as Hd.
  { apply deps_changed_false. by rewrite step_ui, dispatch_method, dispatch_strength. }
  rewrite step_storage, Hd. rewrite !step_ui.
  unfold App.step, App.rerender. rewrite step_ui in Hd. unfold ui in *.
  rewrite Hd. simpl. unfold run, App.handleReset.
  destruct (originalPreviewUrl (react (world s)));
    destruct (denoisedPreviewUrl (react (world s))); simpl;
    rewrite ?app_nil_r, <- ?app_assoc; done.
Qed.

End HandlerFacts.

(** ** Object URLs, previews and the settled request *)

Section LifecycleFacts.

Variable JSON_parse : string -> Completion JSValue.
Variable JSON_stringify : JSValue -> string.
Variable Number_toString : float -> string.
Variable parseFloat : string -> float.

Abbreviation handleDenoise_begin := (handleDenoise_begin Number_toString).
Abbreviation handleDenoise_resume := (handleDenoise_resume JSON_parse Number_toString).
Abbreviation loadSettings := (loadSettings JSON_parse).
Abbreviation step := (step JSON_parse JSON_stringify Number_toString parseFloat).
Abbreviation dispatch := (dispatch JSON_parse Number_toString parseFloat).
Abbreviation mount := (mount JSON_parse JSON_stringify).
Abbreviation reachable :=
  (reachable JSON_parse JSON_stringify Number_toString parseFloat).
Abbreviation enabled := (enabled parseFloat).
Abbreviation stored_field := (stored_field JSON_parse).
Abbreviation item_unusable := (item_unusable JSON_parse).

(** *** When the request settles *)

Lemma delivered_dec settled : delivered settled \/ ~ delivered settled.
Proof.
  destruct settled as [response | e]; [ | right; by intros (? & ? & ? & _) ].
  destruct (ok response) eqn:Hok;
    [ | right; intros (? & ? & [= <-] & ? & _); congruence ].
  destruct (body response) as [text | e] eqn:Hbody;
    [ left; by exists response, text
    | right; intros (? & ? & [= <-] & _ & ?); congruence ].
Qed.

(** The world after a delivery: a fresh URL is the denoised preview. *)
Lemma handleDenoise_resume_delivered response text w :
  ok response = true -> body response = Normal text ->
  handleDenoise_resume (Normal response) w =
  (Normal tt,
   mkWorld (mkAppState (selectedFile (react w)) (originalPreviewUrl (react w))
              (Some (BlobURL (next_url w))) (method (react w))
              (strength (react w)) false "Denoising completed.")
           (localStorage w) (revoked w) (N.succ (next_url w))
           (console w) (sent w) (downloads w)).
Proof.
  intros Hok Hbody.
  unfold App.handleDenoise_resume, App.response_blob, try_finally, try_catch,
    mbind, M_bind, lift.
  by rewrite Hok, Hbody.
Qed.

(** The world after anything else: the error is logged and shown. *)
Lemma handleDenoise_resume_undelivered settled w :
  ~ delivered settled ->
  exists e,
    handleDenoise_resume settled w =
    try_finally (denoise_catch e) denoise_finally w.
Proof.
  intros Hnot. destruct settled as [response | e].
  - destruct (ok response) eqn:Hok.
    + destruct (body response) as [text | e] eqn:Hbody.
      * destruct Hnot. by exists response, text.
      * exists e.
        unfold App.handleDenoise_resume, App.response_blob, try_finally,
          try_catch, mbind, M_bind, lift.
        by rewrite Hok, Hbody.
    + eexists. by apply handleDenoise_resume_failed.
  - by exists e.
Qed.


(** *** Object URLs *)

Lemma rerender_keeps prev w :
  revoked (rerender JSON_stringify prev w) = revoked w
  /\ next_url (rerender JSON_stringify prev w) = next_url w
  /\ downloads (rerender JSON_stringify prev w) = downloads w
  /\ console (rerender JSON_stringify prev w) = console w.
Proof. unfold App.rerender. by destruct (deps_changed _ _). Qed.

Ltac urls_split :=
  unfold urls_sound, shown in *; simpl in *;
  repeat match goal with
         | H : _ /\ _ |- _ => destruct H
         end;
  repeat split; intros;
  repeat match goal with
         | H : _ ∈ (_ ++ _)%list |- _ => apply elem_of_app in H as [H | H]
         | H : _ ∈ [_] |- _ => apply list_elem_of_singleton in H; subst
         | H : _ ∈ [] |- _ => by apply elem_of_nil in H
         | H : _ \/ _ |- _ => destruct H
         | H : Some _ = Some _ |- _ => injection H as H; subst
         | H : None = Some _ |- _ => discriminate H
         | |- _ ∉ _ => intros ?
         | |- _ <> _ => intros ?; subst
         end;
  simpl in *.

(** An id below the counter, by one of the two bounds of the invariant. *)
Ltac bound u :=
  match goal with
  | Hs : forall v, _ \/ _ -> (url_id v < ?n)%N |- _ =>
      assert (url_id u < n)%N by (apply Hs; auto)
  | Hr : forall v, v ∈ _ -> (url_id v < ?n)%N, Hin : u ∈ _ |- _ =>
      assert (url_id u < n)%N by (apply Hr; exact Hin)
  end.

Ltac urls :=
  urls_split;
  try match goal with
      | |- (url_id ?u < _)%N => bound u; lia
      | Hin : BlobURL ?n ∈ _ |- False => bound (BlobURL n); simpl in *; lia
      | Hs : forall v, _ \/ _ -> v ∉ _, Hin : ?u ∈ _ |- False =>
          apply (Hs u); [ auto | exact Hin ]
      | Hd : forall o d, _ -> _ -> o <> d |- False =>
          eapply Hd; eauto; fail
      | Heq : _ = Some (BlobURL (next_url ?w)) |- False =>
          bound (BlobURL (next_url w)); simpl in *; lia
      end;
  try lia; try done.

Lemma handleFileChange_urls w file :
  urls_sound w -> urls_sound (run (handleFileChange (react w) file) w).
Proof.
  intros Hinv. unfold run, App.handleFileChange.
  destruct file as [f | ]; simpl.
  - destruct (originalPreviewUrl (react w)) as [o | ] eqn:Ho;
      destruct (denoisedPreviewUrl (react w)) as [d | ] eqn:Hd; simpl.
    all: urls.
  - urls.
Qed.

Lemma handleDenoise_begin_urls w :
  urls_sound w -> urls_sound (snd (handleDenoise_begin (react w) w)).
Proof.
  intros Hinv. unfold App.handleDenoise_begin, App.build_form.
  destruct (selectedFile (react w)) as [file | ]; [ | urls ].
  unfold try_until_await, mbind, M_bind, lift.
  destruct (denoisedPreviewUrl (react w)) as [d | ] eqn:Hd;
    destruct (ToString Number_toString (method (react w))) as [m | e];
    simpl; urls.
Qed.

Lemma handleReset_urls w :
  urls_sound w -> urls_sound (run (handleReset (react w)) w).
Proof.
  intros Hinv. unfold run, App.handleReset.
  destruct (originalPreviewUrl (react w)) as [o | ] eqn:Ho;
    destruct (denoisedPreviewUrl (react w)) as [d | ] eqn:Hd; simpl; urls.
Qed.

Lemma handleDenoise_resume_urls settled w :
  urls_sound w -> urls_sound (run (handleDenoise_resume settled) w).
Proof.
  intros Hinv. unfold run.
  destruct (delivered_dec settled) as [(response & text & -> & Hok & Hbody) | Hnot].
  - rewrite (handleDenoise_resume_delivered _ _ _ Hok Hbody). urls.
  - destruct (handleDenoise_resume_undelivered _ w Hnot) as [e ->].
    rewrite denoise_catch_finally_spec. urls.
Qed.

Lemma handleDownload_urls w :
  urls_sound w -> urls_sound (run (handleDownload (react w)) w).
Proof.
  intros Hinv. unfold run, App.handleDownload.
  destruct (denoisedPreviewUrl (react w)) as [d | ] eqn:Hd; simpl; urls.
Qed.

Lemma rerender_urls prev w : urls_sound w -> urls_sound (rerender JSON_stringify prev w).
Proof. unfold App.rerender. by destruct (deps_changed _ _). Qed.

Lemma step_urls e s : urls_sound (world s) -> urls_sound (world (step e s)).
Proof.
  intros Hinv. unfold App.step. simpl. apply rerender_urls.
  destruct e; simpl.
  - by apply handleFileChange_urls.
  - done.
  - done.
  - by apply handleDenoise_begin_urls.
  - by apply handleDownload_urls.
  - by apply handleReset_urls.
  - by apply handleDenoise_resume_urls.
Qed.

Lemma mount_urls storage : urls_sound (world (mount storage)).
Proof.
  unfold App.mount. simpl. apply rerender_urls.
  unfold urls_sound, shown, run. simpl.
  destruct (loadSettings_rest JSON_parse (initial_world storage)) as (_ & Ho & Hd & _).
  destruct (loadSettings_world JSON_parse (initial_world storage)) as (_ & _ & Hr).
  unfold run in *. cbv zeta in *. simpl in *. rewrite Ho, Hd, Hr.
  repeat split.
  - by intros u [? | ?].
  - intros u Hu. by apply elem_of_nil in Hu.
  - by intros u [? | ?].
  - done.
Qed.

Lemma urls_invariant storage s : reachable storage s -> urls_sound (world s).
Proof.
  induction 1; [ apply mount_urls | by apply step_urls ].
Qed.

(** X1: in every state the page can reach, no object URL behind a preview
    has been revoked, the two previews never share a URL, and every URL in
    use is one [createObjectURL] handed out. *)
Theorem displayed_urls_never_revoked (storage : gmap string string)
    (s : System) :
  reachable storage s ->
  (forall u, shown (ui s) u -> u ∉ revoked (world s))
  /\ (forall o d, originalPreviewUrl (ui s) = Some o ->
                  denoisedPreviewUrl (ui s) = Some d -> o <> d)
  /\ (forall u, shown (ui s) u -> (url_id u < next_url (world s))%N).
Proof.
  intros Hreach. destruct (urls_invariant _ _ Hreach) as (Ha & _ & Hc & Hd).
  by repeat split.
Qed.

(** *** Previews and the processing flag *)

Lemma selection_invariant storage s :
  reachable storage s ->
  (selectedFile (ui s) = None <-> originalPreviewUrl (ui s) = None)
  /\ (isProcessing (ui s) = true -> denoisedPreviewUrl (ui s) = None).
Proof.
  induction 1 as [ | s e Hreach IH Hen ].
  - rewrite mount_ui.
    destruct (loadSettings_rest JSON_parse (initial_world storage))
      as (-> & -> & -> & -> & _).
    done.
  - destruct IH as [IH1 IH2].
    rewrite step_ui. unfold ui in *.
    destruct e; simpl; try (split; [ exact IH1 | exact IH2 ]).
    + (* file input *)
      unfold run, App.handleFileChange. destruct file as [f | ]; simpl.
      * by destruct (originalPreviewUrl (react (world s)));
          destruct (denoisedPreviewUrl (react (world s))).
      * split; [ done | exact IH2 ].
    + (* the Denoise button *)
      unfold App.handleDenoise_begin, App.build_form.
      destruct (selectedFile (react (world s))) as [file | ] eqn:Hsel;
        [ | simpl; rewrite Hsel; split; [ exact IH1 | exact IH2 ] ].
      unfold try_until_await, mbind, M_bind, lift.
      destruct (denoisedPreviewUrl (react (world s))) eqn:Hd;
        destruct (ToString Number_toString (method (react (world s))));
        simpl; rewrite ?Hsel;
        (split; [ exact IH1 | intros; first [ done | assumption ] ]).
    + (* download *)
      unfold run, App.handleDownload.
      destruct (denoisedPreviewUrl (react (world s))) eqn:Hd; simpl;
        rewrite ?Hd; (split; [ exact IH1 | exact IH2 ]).
    + (* reset *)
      unfold run, App.handleReset.
      by destruct (originalPreviewUrl (react (world s)));
        destruct (denoisedPreviewUrl (react (world s))).
    + (* the fetch settles *)
      unfold run.
      destruct (delivered_dec settled)
        as [(response & text & -> & Hok & Hbody) | Hnot].
      * rewrite (handleDenoise_resume_delivered _ _ _ Hok Hbody). simpl.
        split; [ exact IH1 | done ].
      * destruct (handleDenoise_resume_undelivered _ (world s) Hnot) as [err ->].
        rewrite denoise_catch_finally_spec. simpl. split; [ exact IH1 | done ].
Qed.

(** X3: in every state the page can reach, the original preview is there
    exactly when a file is selected. *)
Theorem original_preview_iff_file_selected (storage : gmap string string)
    (s : System) :
  reachable storage s ->
  selectedFile (ui s) = None <-> originalPreviewUrl (ui s) = None.
Proof. intros Hreach. by apply (selection_invariant storage). Qed.

(** X4: in every state the page can reach, while [isProcessing] is true
    there is no denoised preview, so nothing can be downloaded while a
    request is out. *)
Theorem no_result_while_processing (storage : gmap string string)
    (s : System) :
  reachable storage s ->
  isProcessing (ui s) = true ->
  denoisedPreviewUrl (ui s) = None /\ enabled EvDownloadClick s = false.
Proof.
  intros Hreach Hp.
  destruct (selection_invariant storage s Hreach) as [_ Hnone].
  specialize (Hnone Hp). split; [ done | ].
  simpl. fold (ui s). by rewrite Hnone.
Qed.

Lemma step_parts e s :
  revoked (world (step e s)) = revoked (world (dispatch e s))
  /\ next_url (world (step e s)) = next_url (world (dispatch e s))
  /\ downloads (world (step e s)) = downloads (world (dispatch e s))
  /\ console (world (step e s)) = console (world (dispatch e s)).
Proof. apply rerender_keeps. Qed.

(** X2: a click on the download button saves the denoised preview that is
    on the page, under the name "denoised.png"; its URL has not been
    revoked; the React state is left as it is; and no other event
    downloads anything. *)
Theorem download_saves_current_result (storage : gmap string string)
    (s : System) :
  reachable storage s ->
  enabled EvDownloadClick s = true ->
  (exists u,
     denoisedPreviewUrl (ui s) = Some u
     /\ (u ∉ revoked (world s))
     /\ downloads (world (step EvDownloadClick s))
        = (downloads (world s) ++ [(u, "denoised.png")])%list)
  /\ ui (step EvDownloadClick s) = ui s
  /\ (forall e, e <> EvDownloadClick ->
        downloads (world (step e s)) = downloads (world s)).
Proof.
  intros Hreach Hen. simpl in Hen. fold (ui s) in Hen.
  destruct (denoisedPreviewUrl (ui s)) as [u | ] eqn:Hd; [ | done ].
  split; [ exists u; split; [ done | split ] | split ].
  - destruct (urls_invariant _ _ Hreach) as (_ & _ & Hc & _).
    apply Hc. by right.
  - destruct (step_parts EvDownloadClick s) as (_ & _ & -> & _).
    simpl. unfold run, App.handleDownload. fold (ui s). by rewrite Hd.
  - rewrite step_ui. unfold ui in *. simpl. unfold run, App.handleDownload.
    by rewrite Hd.
  - intros e He. destruct (step_parts e s) as (_ & _ & -> & _).
    destruct e; simpl; unfold run; try reflexivity; try by_frame. done.
Qed.

(** X5: when the fetch settles the handler always clears [isProcessing]
    and leaves the selection, the original preview, the settings, the
    revoked URLs and the requests sent as they are. If the response is ok
    and its body can be read, a URL never handed out before becomes the
    denoised preview and the status is "Denoising completed.". If the fetch
    was rejected, or the body of an ok response cannot be read, the status
    is "Error: " followed by the message of that error; in every case
    without a delivery the denoised preview is left as it is. *)
Theorem settle_outcome (settled : Completion Response) (w : World) :
  let w' := run (handleDenoise_resume settled) w in
  (isProcessing (react w') = false
   /\ selectedFile (react w') = selectedFile (react w)
   /\ originalPreviewUrl (react w') = originalPreviewUrl (react w)
   /\ method (react w') = method (react w)
   /\ strength (react w') = strength (react w)
   /\ revoked w' = revoked w
   /\ sent w' = sent w)
  /\ (delivered settled ->
      statusMessage (react w') = "Denoising completed."
      /\ denoisedPreviewUrl (react w') = Some (BlobURL (next_url w))
      /\ next_url w' = N.succ (next_url w)
      /\ console w' = console w)
  /\ (~ delivered settled ->
      denoisedPreviewUrl (react w') = denoisedPreviewUrl (react w)
      /\ next_url w' = next_url w
      /\ exists msg, statusMessage (react w') = "Error: " +:+ msg
                     /\ console w' = (console w ++ [msg])%list)
  /\ (forall e, settled = Throw e ->
        statusMessage (react w') = "Error: " +:+ message e)
  /\ (forall response e,
        settled = Normal response -> ok response = true ->
        body response = Throw e ->
        statusMessage (react w') = "Error: " +:+ message e).
Proof.
  cbv zeta. unfold run. split; [ | split; [ | split; [ | split ] ] ].
  - destruct (delivered_dec settled)
      as [(response & text & -> & Hok & Hbody) | Hnot].
    + by rewrite (handleDenoise_resume_delivered _ _ _ Hok Hbody).
    + destruct (handleDenoise_resume_undelivered _ w Hnot) as [err ->].
      by rewrite denoise_catch_finally_spec.
  - intros (response & text & -> & Hok & Hbody).
    by rewrite (handleDenoise_resume_delivered _ _ _ Hok Hbody).
  - intros Hnot.
    destruct (handleDenoise_resume_undelivered _ w Hnot) as [err ->].
    rewrite denoise_catch_finally_spec. simpl. repeat split.
    by exists (message err).
  - by intros e ->.
  - intros response e -> Hok Hbody.
    unfold App.handleDenoise_resume, App.response_blob, try_finally,
      try_catch, mbind, M_bind, lift.
    by rewrite Hok, Hbody.
Qed.

(** *** Choosing a file *)

Lemma deps_unchanged e s :
  method (ui (dispatch e s)) = method (ui s) ->
  strength (ui (dispatch e s)) = strength (ui s) ->
  world (step e s) = world (dispatch e s).
Proof.
  intros Hm Hs. unfold App.step, App.rerender. simpl.
  assert (deps_changed (react (world s)) (react (world (dispatch e s))) = false)
    as ->; [ | done ].
  apply deps_changed_false. by split.
Qed.

Lemma step_quiet e s :
  match e with
  | EvMethodChange _ | EvStrengthChange _ => True
  | _ => world (step e s) = world (dispatch e s)
  end.
Proof.
  destruct e; try done; apply deps_unchanged;
    by rewrite ?dispatch_method, ?dispatch_strength.
Qed.

(** X6: choosing a file selects it, shows it behind a URL never handed
    out before, removes the denoised preview, clears the status message and
    revokes the URLs of both previous previews; the settings, the
    processing flag, localStorage and the request in flight are as
    before. *)
Theorem file_replaces_previews (s : System) (f : File) :
  let s' := step (EvFileChange (Some f)) s in
  selectedFile (ui s') = Some f
  /\ originalPreviewUrl (ui s') = Some (BlobURL (next_url (world s)))
  /\ denoisedPreviewUrl (ui s') = None
  /\ statusMessage (ui s') = ""
  /\ revoked (world s') =
     (revoked (world s) ++ option_list (originalPreviewUrl (ui s))
                        ++ option_list (denoisedPreviewUrl (ui s)))%list
  /\ method (ui s') = method (ui s)
  /\ strength (ui s') = strength (ui s)
  /\ isProcessing (ui s') = isProcessing (ui s)
  /\ localStorage (world s') = localStorage (world s)
  /\ inflight s' = inflight s.
Proof.
  cbv zeta. unfold ui.
  rewrite (step_quiet (EvFileChange (Some f)) s). simpl.
  unfold run, App.handleFileChange.
  destruct (originalPreviewUrl (react (world s)));
    destruct (denoisedPreviewUrl (react (world s))); simpl;
    rewrite ?app_nil_r, <- ?app_assoc; done.
Qed.

(** X7: when the file dialog is closed without a file, the selection and
    the original preview are dropped, but nothing is revoked, and the
    denoised preview, the status message and everything else stay. A click
    on Denoise after that sends nothing and asks for an image. *)
Theorem cancelled_file_dialog (s : System) :
  let s' := step (EvFileChange None) s in
  let s'' := step EvDenoiseClick s' in
  (selectedFile (ui s') = None
   /\ originalPreviewUrl (ui s') = None
   /\ revoked (world s') = revoked (world s)
   /\ denoisedPreviewUrl (ui s') = denoisedPreviewUrl (ui s)
   /\ statusMessage (ui s') = statusMessage (ui s)
   /\ isProcessing (ui s') = isProcessing (ui s)
   /\ method (ui s') = method (ui s)
   /\ strength (ui s') = strength (ui s))
  /\ (statusMessage (ui s'') = "Please upload an image first."
      /\ sent (world s'') = sent (world s)
      /\ inflight s'' = inflight s
      /\ isProcessing (ui s'') = isProcessing (ui s)).
Proof.
  cbv zeta.
  pose proof (step_quiet (EvFileChange None) s) as Hw. cbv iota in Hw.
  assert (inflight (step (EvFileChange None) s) = inflight s) as Hi by done.
  revert Hw Hi. generalize (step (EvFileChange None) s). intros s1 Hw Hi.
  unfold ui. rewrite step_inflight.
  rewrite (step_quiet EvDenoiseClick s1). simpl.
  unfold App.handleDenoise_begin. rewrite Hw, Hi.
  unfold run, App.handleFileChange. simpl. done.
Qed.

(** *** Starting a request *)

(** X15: a click on Denoise with a file selected and a method that is a
    string sends the request built from that file and the settings, sets
    [isProcessing], shows "Processing...", and removes and revokes the
    previous denoised preview; the selection, the original preview, the
    settings and localStorage are as before. *)
Theorem denoise_starts_request (s : System) (file : File) (m : string) :
  selectedFile (ui s) = Some file ->
  method (ui s) = JStr m ->
  let s' := step EvDenoiseClick s in
  let request :=
    mkRequest API_URL "POST"
      [("file", FormFile file);
       ("method", FormText m);
       ("strength", FormText (Number_toString (strength (ui s))))] in
  inflight s' = (inflight s ++ [request])%list
  /\ sent (world s') = (sent (world s) ++ [request])%list
  /\ isProcessing (ui s') = true
  /\ statusMessage (ui s') = "Processing..."
  /\ denoisedPreviewUrl (ui s') = None
  /\ revoked (world s') =
     (revoked (world s) ++ option_list (denoisedPreviewUrl (ui s)))%list
  /\ selectedFile (ui s') = Some file
  /\ originalPreviewUrl (ui s') = originalPreviewUrl (ui s)
  /\ method (ui s') = method (ui s)
  /\ strength (ui s') = strength (ui s)
  /\ localStorage (world s') = localStorage (world s).
Proof.
  intros Hfile Hm. cbv zeta. unfold ui in *.
  rewrite step_inflight. rewrite (step_quiet EvDenoiseClick s). simpl.
  unfold App.handleDenoise_begin, App.build_form, try_until_await, mbind,
    M_bind, lift.
  rewrite Hfile, Hm. simpl.
  destruct (denoisedPreviewUrl (react (world s))) eqn:Hd; simpl;
    rewrite ?Hfile, ?Hm, ?Hd, ?app_nil_r; repeat split; reflexivity.
Qed.

(** *** A response that comes late *)

(** X8: a request is not cancelled by Reset. When its response is
    delivered after a Reset, the result is installed all the same: the page
    then shows a denoised preview, "Denoising completed." and the download
    button, with no file selected and no original preview. *)
Theorem late_response_after_reset (s : System) (i : nat)
    (response : Response) (text : string) :
  ok response = true ->
  body response = Normal text ->
  let s' := step (EvFetchSettled i (Normal response)) (step EvResetClick s) in
  selectedFile (ui s') = None
  /\ originalPreviewUrl (ui s') = None
  /\ denoisedPreviewUrl (ui s') = Some (BlobURL (next_url (world s)))
  /\ statusMessage (ui s') = "Denoising completed."
  /\ enabled EvDownloadClick s' = true.
Proof.
  intros Hok Hbody. cbv zeta.
  pose proof (step_quiet EvResetClick s) as Hw. cbv iota in Hw.
  revert Hw. generalize (step EvResetClick s). intros s1 Hw.
  unfold App.enabled, ui.
  rewrite (step_quiet (EvFetchSettled i (Normal response)) s1).
  simpl. unfold run.
  rewrite (handleDenoise_resume_delivered _ _ _ Hok Hbody). simpl.
  rewrite Hw. simpl. unfold run, App.handleReset.
  by destruct (originalPreviewUrl (react (world s)));
    destruct (denoisedPreviewUrl (react (world s))).
Qed.

(** *** Reset, twice *)

(** X12: Reset is idempotent: a second Reset right after the first
    changes nothing, and revokes nothing twice. *)
Theorem reset_idempotent (s : System) :
  step EvResetClick (step EvResetClick s) = step EvResetClick s.
Proof.
  assert (forall t, step EvResetClick t
                    = mkSystem (run (handleReset (ui t)) (world t)) (inflight t))
    as Hstep.
  { intros t. pose proof (step_quiet EvResetClick t) as Hq. simpl in Hq.
    unfold App.step in *. simpl in *. by rewrite Hq. }
  rewrite !Hstep. unfold ui, run, App.handleReset. simpl.
  destruct (originalPreviewUrl (react (world s)));
    destruct (denoisedPreviewUrl (react (world s))); reflexivity.
Qed.

(** *** The status message *)

(** X16: the status message is never stale. In every state the page can
    reach, "Processing..." is shown only while [isProcessing] is true, and
    "Denoising completed." only while a denoised preview is on the page. *)
Theorem status_message_is_current (storage : gmap string string)
    (s : System) :
  reachable storage s ->
  (statusMessage (ui s) = "Processing..." -> isProcessing (ui s) = true)
  /\ (statusMessage (ui s) = "Denoising completed." ->
      denoisedPreviewUrl (ui s) <> None).
Proof.
  induction 1 as [ | s e Hreach IH Hen ].
  - rewrite mount_ui.
    destruct (loadSettings_rest JSON_parse (initial_world storage))
      as (_ & _ & _ & _ & ->).
    done.
  - destruct IH as [IH1 IH2].
    rewrite step_ui. unfold ui in *.
    destruct e; simpl; try (split; [ exact IH1 | exact IH2 ]).
    + (* file input *)
      unfold run, App.handleFileChange. destruct file as [f | ]; simpl.
      * by destruct (originalPreviewUrl (react (world s)));
          destruct (denoisedPreviewUrl (react (world s))).
      * split; [ exact IH1 | exact IH2 ].
    + (* the Denoise button *)
      unfold App.handleDenoise_begin, App.build_form.
      destruct (selectedFile (react (world s))) as [file | ]; [ | done ].
      unfold try_until_await, mbind, M_bind, lift.
      by destruct (denoisedPreviewUrl (react (world s)));
        destruct (ToString Number_toString (method (react (world s)))).
    + (* download *)
      unfold run, App.handleDownload.
      destruct (denoisedPreviewUrl (react (world s))) eqn:Hd; simpl;
        rewrite ?Hd; (split; [ exact IH1 | exact IH2 ]).
    + (* reset *)
      unfold run, App.handleReset.
      by destruct (originalPreviewUrl (react (world s)));
        destruct (denoisedPreviewUrl (react (world s))).
    + (* the fetch settles *)
      unfold run.
      destruct (delivered_dec settled)
        as [(response & text & -> & Hok & Hbody) | Hnot].
      * by rewrite (handleDenoise_resume_delivered _ _ _ Hok Hbody).
      * destruct (handleDenoise_resume_undelivered _ (world s) Hnot) as [err ->].
        by rewrite denoise_catch_finally_spec.
Qed.

(** *** Settings across visits *)

Lemma method_truthy storage s :
  reachable storage s -> ToBoolean (method (ui s)) = true.
Proof.
  induction 1 as [ | s e Hreach IH Hen ].
  - rewrite mount_ui, loadSettings_method. simpl.
    by destruct (ToBoolean (stored_field storage "method")) eqn:Ht.
  - rewrite step_ui, dispatch_method. destruct e; try exact IH.
    simpl in Hen. apply bool_decide_eq_true in Hen.
    unfold METHOD_OPTIONS in Hen.
    repeat (apply elem_of_cons in Hen as [-> | Hen]; [ done | ]).
    by apply elem_of_nil in Hen.
Qed.

(** What the load effect reads back from an item the save effect wrote,
    when parsing what was written gives the object that was written. *)
Lemma stored_field_saved storage m x :
  JSON_stringify (settings_object m x) <> "" ->
  JSON_parse (JSON_stringify (settings_object m x))
  = Normal (settings_object m x) ->
  let storage' :=
    <[STORAGE_KEY := JSON_stringify (settings_object m x)]> storage in
  stored_field storage' "method" = m
  /\ stored_field storage' "strength" = JNum x.
Proof.
  intros Hne Hparse. cbv zeta.
  unfold App.stored_field, App.stored_settings.
  rewrite lookup_insert_eq.
  destruct (String.eqb_spec (JSON_stringify (settings_object m x)) "");
    [ done | ].
  by rewrite Hparse.
Qed.

(** X9: the settings survive a reload. From any state the page can reach,
    mounting the page again on the storage it left restores [method] and
    [strength] and leaves the storage as it is, provided [JSON.parse] gives
    back the settings object from the text [JSON.stringify] made of it. *)
Theorem preferences_survive_reload (storage : gmap string string)
    (s : System) :
  reachable storage s ->
  JSON_stringify (settings_object (method (ui s)) (strength (ui s))) <> "" ->
  JSON_parse (JSON_stringify (settings_object (method (ui s)) (strength (ui s))))
  = Normal (settings_object (method (ui s)) (strength (ui s))) ->
  let s' := mount (localStorage (world s)) in
  method (ui s') = method (ui s)
  /\ strength (ui s') = strength (ui s)
  /\ localStorage (world s') = localStorage (world s).
Proof.
  intros Hreach Hne Hparse. cbv zeta.
  pose proof (storage_invariant JSON_parse JSON_stringify Number_toString
                parseFloat storage s Hreach) as Hsaved.
  destruct (stored_field_saved storage _ _ Hne Hparse) as [Hm Hx].
  cbv zeta in Hm, Hx. rewrite <- Hsaved in Hm, Hx.
  assert (method (ui (mount (localStorage (world s)))) = method (ui s)) as Hm'.
  { rewrite mount_ui, loadSettings_method. simpl. rewrite Hm.
    by rewrite (method_truthy storage s Hreach). }
  assert (strength (ui (mount (localStorage (world s)))) = strength (ui s))
    as Hx'.
  { rewrite mount_ui, loadSettings_strength. simpl. by rewrite Hx. }
  split; [ done | split; [ done | ] ].
  rewrite mount_storage, Hm', Hx'.
  rewrite Hsaved at 1. rewrite insert_insert_eq. by rewrite <- Hsaved.
Qed.

(** X10: when the stored method is falsy and the stored strength is not a
    number (nothing stored, an empty item, text that is not JSON, JSON
    without these fields), the page mounts in its initial state and the
    item is overwritten with the JSON text of the default settings. *)
Theorem unreadable_settings_fall_back (storage : gmap string string) :
  ToBoolean (stored_field storage "method") = false ->
  is_number (stored_field storage "strength") = false ->
  ui (mount storage) = initial_state
  /\ localStorage (world (mount storage)) =
     <[STORAGE_KEY :=
         JSON_stringify (JObj [("method", JStr "cdae");
                               ("strength", JNum 0.5)])]> storage.
Proof.
  intros Hm Hx.
  assert (ui (mount storage) = initial_state) as Hui.
  { rewrite mount_ui.
    pose proof (loadSettings_method JSON_parse (initial_world storage)) as Hm'.
    pose proof (loadSettings_strength JSON_parse (initial_world storage)) as Hx'.
    destruct (loadSettings_rest JSON_parse (initial_world storage))
      as (H1 & H2 & H3 & H4 & H5).
    simpl in *. rewrite Hm in Hm'.
    destruct (stored_field storage "strength"); try discriminate;
      destruct (react (run loadSettings (initial_world storage)));
      simpl in *; by subst. }
  split; [ done | ]. by rewrite mount_storage, Hui.
Qed.

(** X11: mounting logs "Failed to load settings" exactly when there is a
    non-empty item that is not JSON or is the JSON [null]; a missing item,
    an empty one, and JSON of any other shape are taken silently. *)
Theorem load_failure_is_logged (storage : gmap string string) :
  (item_unusable storage ->
   console (world (mount storage)) = ["Failed to load settings"])
  /\ (~ item_unusable storage -> console (world (mount storage)) = []).
Proof.
  assert (console (world (mount storage))
          = console (run loadSettings (initial_world storage))) as ->.
  { unfold App.mount, App.rerender. simpl.
    by destruct (deps_changed _ _). }
  unfold item_unusable, run, App.loadSettings, try_catch, mbind, M_bind,
    localStorage_getItem, lift. simpl.
  destruct (storage !! STORAGE_KEY) as [text | ] eqn:Hitem.
  2: { split; [ by intros (? & ? & _) | done ]. }
  destruct (String.eqb_spec text "") as [-> | Hne].
  { split; [ by intros (? & [= <-] & ? & _) | done ]. }
  destruct (JSON_parse text) as [settings | e] eqn:Hparse.
  2: { split; [ done | ]. intros Hnot. destruct Hnot.
       exists text. repeat split; try done. left. by exists e. }
  destruct settings as [ | | b | x | t | elems | props ]; simpl.
  1, 2: split; [ done | ]; intros Hnot; destruct Hnot;
        exists text; repeat split; try done; right; auto.
  all: split; [ | try done ].
  all: try (intros (text' & [= <-] & _ & [[e He] | [He | He]]); congruence).
  all: try done.
  intros _.
  destruct (JS.assoc "method" props) as [mv | ]; simpl;
    [ destruct (ToBoolean mv); simpl | ];
    by destruct (JS.assoc "strength" props) as [[] | ].
Qed.

(** *** Unmounting *)


End LifecycleFacts.

(** ** The statements at concrete inputs *)

Section Examples.

Import Demo.

Lemma busy_reachable : Demo.reachable ∅ busy.
Proof.
  unfold Demo.reachable, busy, picked, Demo.step.
  apply reachable_step; [ apply reachable_step; [ apply reachable_mount | ] | ];
    vm_compute; reflexivity.
Defined.

Lemma returning_reachable : Demo.reachable storage_median returning.
Proof.
  unfold Demo.reachable, returning, Demo.step.
  apply reachable_step; [ apply reachable_step; [ apply reachable_mount | ] | ];
    vm_compute; reflexivity.
Defined.

(** The refusal's message is shown behind the prefix "Error: ". *)
Lemma failed_response_status_witness :
  ok refusal = false
  /\ statusMessage
       (react (run (handleDenoise_resume JSON_parse Number_toString
                      (Normal refusal)) (world busy)))
     = "Error: Unsupported method".
Proof.
  split; [ reflexivity | ].
  apply (failed_response_status JSON_parse Number_toString refusal text_error
           (JObj [("error", JStr "Unsupported method")]) "Unsupported method"
           (world busy)); try reflexivity.
  discriminate.
Defined.

(** C1 as stated fails: the status message is not the server's message
    verbatim. *)
Lemma failed_response_status_not_verbatim :
  ok refusal = false
  /\ body refusal = Normal text_error
  /\ JSON_parse text_error = Normal (JObj [("error", JStr "Unsupported method")])
  /\ statusMessage
       (react (run (handleDenoise_resume JSON_parse Number_toString
                      (Normal refusal)) (world busy)))
     <> "Unsupported method".
Proof. repeat split; try reflexivity. vm_compute. discriminate. Qed.

Lemma failed_response_message_witness :
  ok refusal = false
  /\ console (run (handleDenoise_resume JSON_parse Number_toString
                     (Normal refusal)) (world busy))
     = ["Unsupported method"].
Proof.
  split; [ reflexivity | ].
  apply (proj1 (proj2 (failed_response_message JSON_parse Number_toString
                         refusal (world busy) eq_refl))
               "Unsupported method" eq_refl).
Defined.

Lemma single_request_in_flight_witness :
  Demo.reachable ∅ busy
  /\ length (inflight busy) <= 1
  /\ enabled parseFloat EvDenoiseClick busy = false.
Proof.
  split; [ exact busy_reachable | ].
  destruct (single_request_in_flight JSON_parse JSON_stringify Number_toString
              parseFloat ∅ busy busy_reachable) as (Hle & _ & Hoff & _).
  split; [ exact Hle | ]. apply Hoff. vm_compute. discriminate.
Defined.

Lemma strength_stays_in_unit_interval_witness :
  stored_strength_ok JSON_parse storage_median
  /\ Demo.reachable storage_median returning
  /\ strength (ui returning) = 0.25%float
  /\ in_unit_interval (strength (ui returning)) = true.
Proof.
  assert (stored_strength_ok JSON_parse storage_median) as Hok
    by (vm_compute; reflexivity).
  split; [ exact Hok | ]. split; [ exact returning_reachable | ].
  split; [ reflexivity | ].
  apply (strength_stays_in_unit_interval JSON_parse JSON_stringify
           Number_toString parseFloat storage_median returning Hok
           returning_reachable).
Defined.

(** C3 as stated fails: the load effect takes a stored strength of 7, and
    the request then carries it. *)
Lemma stored_strength_leaves_unit_interval :
  JSON_parse text_bogus
  = Normal (JObj [("method", JStr "bogus"); ("strength", JNum 7)])
  /\ in_unit_interval (strength (react (initial_world storage_bogus))) = true
  /\ strength (react (run (loadSettings JSON_parse)
                          (initial_world storage_bogus))) = 7%float
  /\ in_unit_interval 7 = false
  /\ Demo.reachable storage_bogus misled
  /\ (req_body <$> sent (world misled))
     = [[("file", FormFile photo);
         ("method", FormText "bogus");
         ("strength", FormText "7")]].
Proof.
  repeat split; try reflexivity.
  unfold Demo.reachable, misled, Demo.step.
  apply reachable_step; [ apply reachable_step; [ apply reachable_mount | ] | ];
    vm_compute; reflexivity.
Qed.

Lemma method_stays_recognized_witness :
  stored_method_ok JSON_parse storage_median
  /\ Demo.reachable storage_median returning
  /\ method (ui returning) = JStr "median"
  /\ recognized (method (ui returning)).
Proof.
  assert (stored_method_ok JSON_parse storage_median) as Hok.
  { intros _. exists "median". split; [ reflexivity | ].
    unfold METHOD_OPTIONS. repeat constructor. }
  split; [ exact Hok | ]. split; [ exact returning_reachable | ].
  split; [ reflexivity | ].
  apply (method_stays_recognized JSON_parse JSON_stringify Number_toString
           parseFloat storage_median returning Hok returning_reachable).
Defined.

(** C4 as stated fails: the load effect takes the stored method "bogus",
    which is none of the four, and the request then carries it. *)
Lemma stored_method_leaves_options :
  JSON_parse text_bogus
  = Normal (JObj [("method", JStr "bogus"); ("strength", JNum 7)])
  /\ recognized (method (react (initial_world storage_bogus)))
  /\ method (react (run (loadSettings JSON_parse)
                        (initial_world storage_bogus))) = JStr "bogus"
  /\ ~ recognized (JStr "bogus")
  /\ form_get "method" <$> (req_body <$> sent (world misled))
     = [Some (FormText "bogus")].
Proof.
  split; [ reflexivity | ]. split.
  { exists "cdae". split; [ reflexivity | ]. unfold METHOD_OPTIONS.
    repeat constructor. }
  split; [ reflexivity | ]. split; [ | reflexivity ].
  intros (name & Hname & Hin). injection Hname as <-.
  unfold METHOD_OPTIONS in Hin.
  repeat (apply elem_of_cons in Hin as [Hin | Hin]; [ discriminate | ]).
  by apply elem_of_nil in Hin.
Qed.

Lemma settings_saved_on_change_witness :
  Demo.reachable ∅ fresh
  /\ method (ui (Demo.step (EvMethodChange "mean") fresh)) <> method (ui fresh)
  /\ localStorage (world fresh) = {[ STORAGE_KEY := text_default ]}
  /\ localStorage (world (Demo.step (EvMethodChange "mean") fresh))
     = <[STORAGE_KEY := text_mean]> (localStorage (world fresh)).
Proof.
  assert (Demo.reachable ∅ fresh) as Hreach by apply reachable_mount.
  assert (method (ui (Demo.step (EvMethodChange "mean") fresh))
          <> method (ui fresh)) as Hne by (vm_compute; discriminate).
  split; [ exact Hreach | ]. split; [ exact Hne | ].
  destruct (settings_saved_on_change JSON_parse JSON_stringify
              Number_toString parseFloat ∅ fresh (EvMethodChange "mean")
              Hreach) as (Hnow & Hstep & _).
  split; [ exact Hnow | exact (Hstep (or_introl Hne)) ].
Defined.

Lemma denoise_request_form_witness :
  selectedFile (ui picked) = Some photo
  /\ method (ui picked) = JStr "cdae"
  /\ exists request,
       fst (handleDenoise_begin Number_toString (ui picked) (world picked))
       = Normal (Some request)
       /\ req_body request =
          [("file", FormFile photo);
           ("method", FormText "cdae");
           ("strength", FormText "0.5")].
Proof.
  split; [ reflexivity | ]. split; [ reflexivity | ].
  destruct (denoise_request_form Number_toString (ui picked) photo
              (world picked) eq_refl) as [Hbody Hsent].
  destruct (Hsent "cdae" eq_refl) as [request Hrequest].
  exists request. split; [ exact Hrequest | ].
  destruct (Hbody request Hrequest) as (m & Hm & Hform & _).
  vm_compute in Hm. injection Hm as <-. exact Hform.
Defined.

Lemma denoise_without_file_witness :
  selectedFile (ui fresh) = None
  /\ statusMessage
       (react (snd (handleDenoise_begin Number_toString (ui fresh) (world fresh))))
     = "Please upload an image first.".
Proof.
  split; [ reflexivity | ].
  apply (denoise_without_file Number_toString (ui fresh) (world fresh) eq_refl).
Defined.

(** C9 as stated fails: a falsy stored method does not keep both
    defaults. With [{"strength":0.25}] stored the method is missing, and the
    load effect still takes the strength. *)
Lemma stored_strength_loaded_without_method :
  JSON_parse' text_strength = Normal (JObj [("strength", JNum 0.25)])
  /\ ToBoolean (stored_field JSON_parse' storage_strength "method") = false
  /\ method (react (run (loadSettings JSON_parse')
                        (initial_world storage_strength))) = JStr "cdae"
  /\ strength (react (run (loadSettings JSON_parse')
                          (initial_world storage_strength))) = 0.25%float
  /\ strength (react (run (loadSettings JSON_parse')
                          (initial_world storage_strength))) <> 0.5%float.
Proof.
  repeat split; try reflexivity.
  intros H. apply (f_equal (fun x => PrimFloat.eqb x 0.5)) in H.
  vm_compute in H. discriminate.
Qed.

Lemma loadSettings_safe_witness :
  ToBoolean (stored_field JSON_parse {[ STORAGE_KEY := "null" ]} "method") = false
  /\ method (react (run (loadSettings JSON_parse)
                        (initial_world {[ STORAGE_KEY := "null" ]})))
     = JStr "cdae".
Proof.
  split; [ reflexivity | ].
  apply (proj1 (proj2 (loadSettings_safe JSON_parse {[ STORAGE_KEY := "null" ]}))).
  reflexivity.
Defined.

End Examples.

(** ** Object URLs, previews and settings at concrete inputs *)

Section MoreExamples.

Import Demo.


Lemma finished_reachable : Demo.reachable ∅ finished.
Proof.
  unfold Demo.reachable, finished, Demo.step.
  apply reachable_step; [ exact busy_reachable | vm_compute; reflexivity ].
Defined.

Lemma switched_reachable : Demo.reachable ∅ switched.
Proof.
  unfold Demo.reachable, switched, Demo.step.
  apply reachable_step; [ apply reachable_mount | vm_compute; reflexivity ].
Defined.

Lemma displayed_urls_never_revoked_witness :
  Demo.reachable ∅ finished
  /\ denoisedPreviewUrl (ui finished) = Some (BlobURL 1)
  /\ BlobURL 1 ∉ revoked (world finished).
Proof.
  split; [ exact finished_reachable | ]. split; [ reflexivity | ].
  apply (proj1 (displayed_urls_never_revoked JSON_parse JSON_stringify
                  Number_toString parseFloat ∅ finished finished_reachable)).
  right. reflexivity.
Defined.

Lemma download_saves_current_result_witness :
  Demo.reachable ∅ finished
  /\ enabled parseFloat EvDownloadClick finished = true
  /\ downloads (world (Demo.step EvDownloadClick finished))
     = [(BlobURL 1, "denoised.png")].
Proof.
  split; [ exact finished_reachable | ]. split; [ reflexivity | ].
  destruct (download_saves_current_result JSON_parse JSON_stringify
              Number_toString parseFloat ∅ finished finished_reachable
              eq_refl) as ((u & Hu & _ & Hd) & _).
  vm_compute in Hu. injection Hu as <-. exact Hd.
Defined.

Lemma original_preview_iff_file_selected_witness :
  Demo.reachable ∅ fresh
  /\ selectedFile (ui fresh) = None
  /\ originalPreviewUrl (ui fresh) = None.
Proof.
  assert (Demo.reachable ∅ fresh) as Hreach by apply reachable_mount.
  split; [ exact Hreach | ]. split; [ reflexivity | ].
  apply (proj1 (original_preview_iff_file_selected JSON_parse JSON_stringify
                  Number_toString parseFloat ∅ fresh Hreach)).
  reflexivity.
Defined.

Lemma no_result_while_processing_witness :
  Demo.reachable ∅ busy
  /\ isProcessing (ui busy) = true
  /\ enabled parseFloat EvDownloadClick busy = false.
Proof.
  split; [ exact busy_reachable | ]. split; [ reflexivity | ].
  apply (no_result_while_processing JSON_parse JSON_stringify Number_toString
           parseFloat ∅ busy busy_reachable eq_refl).
Defined.

Lemma settle_outcome_witness :
  delivered (Normal image)
  /\ statusMessage
       (react (run (handleDenoise_resume JSON_parse Number_toString
                      (Normal image)) (world busy)))
     = "Denoising completed.".
Proof.
  assert (delivered (Normal image)) as Hd.
  { exists image, "PNG". repeat split. }
  split; [ exact Hd | ].
  apply (proj1 (proj2 (settle_outcome JSON_parse Number_toString
                         (Normal image) (world busy)))).
  exact Hd.
Defined.

Lemma denoise_starts_request_witness :
  selectedFile (ui picked) = Some photo
  /\ method (ui picked) = JStr "cdae"
  /\ isProcessing (ui (Demo.step EvDenoiseClick picked)) = true
  /\ statusMessage (ui (Demo.step EvDenoiseClick picked)) = "Processing...".
Proof.
  split; [ reflexivity | ]. split; [ reflexivity | ].
  destruct (denoise_starts_request JSON_parse JSON_stringify Number_toString
              parseFloat picked photo "cdae" eq_refl eq_refl)
    as (_ & _ & Hp & Hs & _).
  split; [ exact Hp | exact Hs ].
Defined.

Lemma late_response_after_reset_witness :
  ok image = true
  /\ body image = Normal "PNG"
  /\ selectedFile
       (ui (Demo.step (EvFetchSettled 0 (Normal image))
                      (Demo.step EvResetClick busy))) = None
  /\ denoisedPreviewUrl
       (ui (Demo.step (EvFetchSettled 0 (Normal image))
                      (Demo.step EvResetClick busy))) = Some (BlobURL 1).
Proof.
  split; [ reflexivity | ]. split; [ reflexivity | ].
  destruct (late_response_after_reset JSON_parse JSON_stringify
              Number_toString parseFloat busy 0 image "PNG" eq_refl eq_refl)
    as (Hsel & _ & Hden & _).
  split; [ exact Hsel | exact Hden ].
Defined.

Lemma preferences_survive_reload_witness :
  Demo.reachable ∅ switched
  /\ JSON_stringify (settings_object (method (ui switched))
                                     (strength (ui switched))) = text_mean
  /\ JSON_parse text_mean = Normal (settings_object (JStr "mean") 0.5%float)
  /\ method (ui (mount JSON_parse JSON_stringify (localStorage (world switched))))
     = JStr "mean".
Proof.
  split; [ exact switched_reachable | ]. split; [ reflexivity | ].
  split; [ reflexivity | ].
  assert (JSON_stringify (settings_object (method (ui switched))
                                          (strength (ui switched))) <> "")
    as Hne by (vm_compute; discriminate).
  apply (proj1 (preferences_survive_reload JSON_parse JSON_stringify
                  Number_toString parseFloat ∅ switched switched_reachable
                  Hne eq_refl)).
Defined.

Lemma unreadable_settings_fall_back_witness :
  ToBoolean (stored_field JSON_parse storage_null "method") = false
  /\ is_number (stored_field JSON_parse storage_null "strength") = false
  /\ ui (mount JSON_parse JSON_stringify storage_null) = initial_state
  /\ localStorage (world (mount JSON_parse JSON_stringify storage_null))
     = {[ STORAGE_KEY := text_default ]}.
Proof.
  split; [ reflexivity | ]. split; [ reflexivity | ].
  destruct (unreadable_settings_fall_back JSON_parse JSON_stringify
              storage_null eq_refl eq_refl) as [Hui Hstore].
  split; [ exact Hui | ]. rewrite Hstore. vm_compute. reflexivity.
Defined.

Lemma load_failure_is_logged_witness :
  item_unusable JSON_parse storage_null
  /\ console (world (mount JSON_parse JSON_stringify storage_null))
     = ["Failed to load settings"].
Proof.
  assert (item_unusable JSON_parse storage_null) as Hbad.
  { exists "null". split; [ reflexivity | ]. split; [ discriminate | ].
    right. left. reflexivity. }
  split; [ exact Hbad | ].
  apply (proj1 (load_failure_is_logged JSON_parse JSON_stringify storage_null)).
  exact Hbad.
Defined.


Lemma status_message_is_current_witness :
  Demo.reachable ∅ finished
  /\ statusMessage (ui finished) = "Denoising completed."
  /\ denoisedPreviewUrl (ui finished) <> None.
Proof.
  split; [ exact finished_reachable | ]. split; [ reflexivity | ].
  apply (proj2 (status_message_is_current JSON_parse JSON_stringify
                  Number_toString parseFloat ∅ finished finished_reachable)).
  reflexivity.
Defined.

End MoreExamples.
